(** * eCourts scraper: a shallow embedding of [backend/services/ecourts_scraper.py]

    The development models the [ECourtsScraper] class: the option-list
    extraction of the location fetchers, the case-result interpreter
    [_parse_case_result], the cause-list interpreter [_parse_cause_list], the
    session, the request payloads and the try/except boundary of every public
    coroutine.

    What lies outside the source file is taken as follows.
    - A Python [str] is a list of code points.  [str.strip] is defined on
      all of Unicode (the blanks of [str.isspace]).  [str.lower] and the value
      of a decimal digit are defined outright on ASCII and taken from the
      interpreter's Unicode tables beyond it (class [Unicode]), so nothing
      proved depends on the version of those tables.
    - [BeautifulSoup(html, 'html.parser')] is a parameter that returns a tree
      or raises (the parser rejects some markup).  The tree type [node] and
      the queries [find_all], [find], [text] and [get] follow bs4.
    - [datetime.date] is a record of year, month and day; adding
      [timedelta(days=1)] is the calendar successor, raising [OverflowError]
      past 9999-12-31 as CPython does.
    - The clock ([datetime.now()]), the outcome of the awaited HTTP call, the
      outcome of each file-system call and the path separator of the platform
      are explicit inputs. *)

From Stdlib Require Import ZArith Ascii String List Bool Lia.
From stdpp Require Import base option list strings gmap.

#[local] Set Warnings "-register-all".

Local Open Scope Z_scope.

(* ===================================================================== *)
(** * Python strings *)
(* ===================================================================== *)

(** A string is the list of its code points. *)
Definition str : Type := list N.

(** A literal of the source: ASCII text as code points. *)
Definition lit (s : string) : str := N_of_ascii <$> list_ascii_of_string s.
Coercion lit : string >-> str.

#[global] Instance str_eq_dec : EqDecision str := _.
#[global] Instance str_countable : Countable str := _.

(** What CPython reads from its Unicode database for text beyond ASCII:
    [s.lower()] for a string with a non-ASCII character, and
    [unicodedata.decimal(c)] for a non-ASCII character ([None] when [c] is no
    decimal digit). *)
Class Unicode : Type := {
  unicode_lower : str -> str;
  unicode_decimal : N -> option Z
}.

Module PyStr.

(** [a == b] *)
Definition eqb (a b : str) : bool := bool_decide (a = b).

(** [str.isspace] on one character: the blanks of the Unicode database. *)
Definition is_space (c : N) : bool :=
  ((9 <=? c) && (c <=? 13) || (28 <=? c) && (c <=? 32) || (c =? 133) || (c =? 160)
   || (c =? 0x1680) || (0x2000 <=? c) && (c <=? 0x200a)
   || (c =? 0x2028) || (c =? 0x2029) || (c =? 0x202f) || (c =? 0x205f)
   || (c =? 0x3000))%N.

Definition is_ascii (s : str) : bool := forallb (fun c => (c <? 128)%N) s.

(** [str.lower] on an ASCII character: A..Z go to a..z. *)
Definition ascii_lower_char (c : N) : N :=
  if ((65 <=? c) && (c <=? 90))%N then (c + 32)%N else c.

(** [s.lower()] *)
Definition lower `{Unicode} (s : str) : str :=
  if is_ascii s then ascii_lower_char <$> s else unicode_lower s.

Fixpoint lstrip (s : str) : str :=
  match s with
  | [] => []
  | c :: s' => if is_space c then lstrip s' else s
  end.

Fixpoint rstrip (s : str) : str :=
  match s with
  | [] => []
  | c :: s' =>
      match rstrip s' with
      | [] => if is_space c then [] else [c]
      | r => c :: r
      end
  end.

(** [s.strip()] *)
Definition strip (s : str) : str := rstrip (lstrip s).

(** [s.startswith(p)] *)
Fixpoint prefix (p s : str) : bool :=
  match p, s with
  | [], _ => true
  | a :: p', b :: s' => (a =? b)%N && prefix p' s'
  | _ :: _, [] => false
  end.

(** [needle in s] *)
Fixpoint contains (needle s : str) : bool :=
  prefix needle s ||
  match s with
  | [] => false
  | _ :: s' => contains needle s'
  end.

(** [s.replace(c, '')] for a one-character [c]. *)
Fixpoint remove_char (c : N) (s : str) : str :=
  match s with
  | [] => []
  | a :: s' => if (a =? c)%N then remove_char c s' else a :: remove_char c s'
  end.

(** Truthiness of a string: [if s:]. *)
Definition truthy (s : str) : bool :=
  match s with [] => false | _ => true end.

End PyStr.

(* ===================================================================== *)
(** * The parsed document (bs4) *)
(* ===================================================================== *)

(** A page element: a text node, a comment (left out of [.text]), or a tag
    with its attribute dictionary and its children in document order. *)
Inductive node : Type :=
| NavigableString (s : str)
| Comment (s : str)
| Tag (name : str) (attrs : gmap str str) (contents : list node).

Definition is_tag_named (nm : str) (n : node) : bool :=
  match n with
  | Tag name _ _ => PyStr.eqb name nm
  | _ => false
  end.

(** [tag.find_all(nm)]: every descendant tag called [nm], in document order
    (a match is listed before the matches inside it). *)
Fixpoint find_all (nm : str) (n : node) : list node :=
  match n with
  | Tag _ _ contents =>
      (fix over (l : list node) : list node :=
         match l with
         | [] => []
         | c :: l' =>
             (if is_tag_named nm c then [c] else []) ++ find_all nm c ++ over l'
         end) contents
  | _ => []
  end.

(** [tag.find(nm)]: the first match of [find_all], or [None]. *)
Definition find (nm : str) (n : node) : option node := head (find_all nm n).

(** [tag.get(key, '')] *)
Definition get (n : node) (key : str) : str :=
  match n with
  | Tag _ attrs _ => default [] (attrs !! key)
  | _ => []
  end.

(** [tag.find(nm, {key: val})]: the first descendant called [nm] whose
    attribute [key] is exactly [val]. *)
Definition has_attr (key val : str) (n : node) : bool :=
  match n with
  | Tag _ attrs _ =>
      match attrs !! key with
      | Some v => PyStr.eqb v val
      | None => false
      end
  | _ => false
  end.

Definition find_attr (nm key val : str) (n : node) : option node :=
  head (List.filter (has_attr key val) (find_all nm n)).

(** [tag.text]: the text nodes below the tag, joined in document order. *)
Fixpoint text (n : node) : str :=
  match n with
  | NavigableString s => s
  | Comment _ => []
  | Tag _ _ contents =>
      (fix over (l : list node) : str :=
         match l with
         | [] => []
         | c :: l' => text c ++ over l'
         end) contents
  end.

(** [tag.text.strip()] *)
Definition stripped_text (n : node) : str := PyStr.strip (text n).

(* ===================================================================== *)
(** * Exceptions *)
(* ===================================================================== *)

(** The exceptions the modelled code can meet. *)
Inductive exn : Type :=
| IndexError
| ValueError
| OverflowError
| ParserRejectedMarkup (msg : str)
| TransportError (msg : str).

(** A computation that returns or raises. *)
Inductive py (A : Type) : Type :=
| Ok (a : A)
| Raise (e : exn).
Arguments Ok {A} a.
Arguments Raise {A} e.

#[global] Instance py_ret : MRet py := fun _ a => Ok a.
#[global] Instance py_bind : MBind py := fun _ _ f m =>
  match m with
  | Ok a => f a
  | Raise e => Raise e
  end.

(** [l[i]] *)
Definition subscript {A : Type} (l : list A) (i : nat) : py A :=
  match l !! i with
  | Some a => Ok a
  | None => Raise IndexError
  end.

(** [str(e)] for a caught exception.  The code reads it in one place, the
    handler of [fetch_cause_list], which only the exceptions of the awaited
    call and of the parser reach; these carry their message. *)
Definition exn_message (e : exn) : str :=
  match e with
  | IndexError => "list index out of range"
  | ValueError => "time data does not match format"
  | OverflowError => "date value out of range"
  | ParserRejectedMarkup msg => msg
  | TransportError msg => msg
  end.

(* ===================================================================== *)
(** * Dates (datetime) *)
(* ===================================================================== *)

Record date : Type := mkDate { year : Z; month : Z; day : Z }.

Definition date_eqb (a b : date) : bool :=
  (year a =? year b) && (month a =? month b) && (day a =? day b).

Definition is_leap (y : Z) : bool :=
  (y mod 4 =? 0) && (negb (y mod 100 =? 0) || (y mod 400 =? 0)).

Definition days_in_month (y m : Z) : Z :=
  if m =? 2 then (if is_leap y then 29 else 28)
  else if (m =? 4) || (m =? 6) || (m =? 9) || (m =? 11) then 30
  else 31.

(** The range check of the [date(year, month, day)] constructor. *)
Definition valid_date (d : date) : bool :=
  (1 <=? year d) && (year d <=? 9999) &&
  (1 <=? month d) && (month d <=? 12) &&
  (1 <=? day d) && (day d <=? days_in_month (year d) (month d)).

Definition date_max : date := mkDate 9999 12 31.

Definition next_day (d : date) : date :=
  if day d <? days_in_month (year d) (month d) then mkDate (year d) (month d) (day d + 1)
  else if month d <? 12 then mkDate (year d) (month d + 1) 1
  else mkDate (year d + 1) 1 1.

(** [d + timedelta(days=1)] *)
Definition add_one_day (d : date) : py date :=
  if date_eqb d date_max then Raise OverflowError else Ok (next_day d).

(** ** [datetime.strptime(value, "%d-%m-%Y").date()]

    [_strptime] compiles the format to the regular expression
    [(?P<d>3[0-1]|[1-2]\d|0[1-9]|[1-9]| [1-9])-(?P<m>1[0-2]|0[1-9]|[1-9])-(?P<Y>\d\d\d\d)],
    matches it at the start of the value, refuses text left over, and builds
    the date from [int] of the three groups.  The classes written with
    brackets hold ASCII digits only; [\d] matches every Unicode decimal digit,
    and [int] reads each digit by its decimal value. *)
Module Strptime.
Section WithUnicode.
Context `{Unicode}.

(** The code point of an ASCII character of the expression. *)
Definition chr (a : ascii) : N := N_of_ascii a.

Definition is_char (a : ascii) (c : N) : bool := (c =? chr a)%N.
Definition in_class (lo hi : ascii) (c : N) : bool :=
  ((chr lo <=? c) && (c <=? chr hi))%N.

(** [unicodedata.decimal(c)] *)
Definition decimal (c : N) : option Z :=
  if in_class "0" "9" c then Some (Z.of_N c - 48)
  else if (c <? 128)%N then None
  else unicode_decimal c.

(** [\d] *)
Definition is_digit (c : N) : bool :=
  match decimal c with Some _ => true | None => false end.

(** The value [int] gives a character: its decimal value, and nothing for a
    blank. *)
Definition digit (c : N) : Z := default 0 (decimal c).

(** One alternative of a group: two characters, or one. *)
Definition two (p1 p2 : N -> bool) (s : str) : list (Z * str) :=
  match s with
  | a :: b :: r =>
      if p1 a && p2 b
      then [(10 * digit a + digit b, r)]
      else []
  | _ => []
  end.
Definition one (p : N -> bool) (s : str) : list (Z * str) :=
  match s with
  | a :: r => if p a then [(digit a, r)] else []
  | _ => []
  end.

(** The ways group [d] can match a prefix, in the order the regex tries them. *)
Definition group_d (s : str) : list (Z * str) :=
  two (is_char "3") (in_class "0" "1") s ++
  two (in_class "1" "2") is_digit s ++
  two (is_char "0") (in_class "1" "9") s ++
  one (in_class "1" "9") s ++
  two (is_char " ") (in_class "1" "9") s.

Definition group_m (s : str) : list (Z * str) :=
  two (is_char "1") (in_class "0" "2") s ++
  two (is_char "0") (in_class "1" "9") s ++
  one (in_class "1" "9") s.

Definition group_Y (s : str) : list (Z * str) :=
  match s with
  | a :: b :: c :: d :: r =>
      if is_digit a && is_digit b && is_digit c && is_digit d
      then [(1000 * digit a + 100 * digit b + 10 * digit c + digit d, r)]
      else []
  | _ => []
  end.

Definition hyphen (s : str) : list str :=
  match s with
  | c :: r => if is_char "-" c then [r] else []
  | _ => []
  end.

(** Every match of the whole expression, first choice first: day, month,
    year and the text after the match. *)
Definition matches (s : str) : list (Z * Z * Z * str) :=
  '(d, s1) ← group_d s;
  s2 ← hyphen s1;
  '(m, s3) ← group_m s2;
  s4 ← hyphen s3;
  '(y, s5) ← group_Y s4;
  [(d, m, y, s5)].

Definition strptime (value : str) : py date :=
  match matches value with
  | [] => Raise ValueError
  | (d, m, y, rest) :: _ =>
      match rest with
      | [] =>
          let dt := mkDate y m d in
          if valid_date dt then Ok dt else Raise ValueError
      | _ => Raise ValueError
      end
  end.

End WithUnicode.
End Strptime.

(* ===================================================================== *)
(** * Data model: the dictionaries the scraper builds *)
(* ===================================================================== *)

(** [{"code": ..., "name": ...}] *)
Module LocationEntry.
Record t : Type := mk { code : str; name : str }.
End LocationEntry.

(** The dictionary [_parse_case_result] fills in. *)
Module CaseResult.
Record t : Type := mk {
  case_id : str;
  found : bool;
  listed_today : bool;
  listed_tomorrow : bool;
  serial_number : option str;
  court_name : option str;
  next_hearing_date : option str;
  case_status : option str;
  details : gmap str str
}.

(** [result[key] = v], one definition per key the code assigns. *)
Definition set_found (r : t) (v : bool) : t :=
  mk (case_id r) v (listed_today r) (listed_tomorrow r) (serial_number r)
     (court_name r) (next_hearing_date r) (case_status r) (details r).
Definition set_listed_today (r : t) (v : bool) : t :=
  mk (case_id r) (found r) v (listed_tomorrow r) (serial_number r)
     (court_name r) (next_hearing_date r) (case_status r) (details r).
Definition set_listed_tomorrow (r : t) (v : bool) : t :=
  mk (case_id r) (found r) (listed_today r) v (serial_number r)
     (court_name r) (next_hearing_date r) (case_status r) (details r).
Definition set_serial_number (r : t) (v : option str) : t :=
  mk (case_id r) (found r) (listed_today r) (listed_tomorrow r) v
     (court_name r) (next_hearing_date r) (case_status r) (details r).
Definition set_court_name (r : t) (v : option str) : t :=
  mk (case_id r) (found r) (listed_today r) (listed_tomorrow r) (serial_number r)
     v (next_hearing_date r) (case_status r) (details r).
Definition set_next_hearing_date (r : t) (v : option str) : t :=
  mk (case_id r) (found r) (listed_today r) (listed_tomorrow r) (serial_number r)
     (court_name r) v (case_status r) (details r).
Definition set_case_status (r : t) (v : option str) : t :=
  mk (case_id r) (found r) (listed_today r) (listed_tomorrow r) (serial_number r)
     (court_name r) (next_hearing_date r) v (details r).
Definition set_detail (r : t) (label value : str) : t :=
  mk (case_id r) (found r) (listed_today r) (listed_tomorrow r) (serial_number r)
     (court_name r) (next_hearing_date r) (case_status r) (<[label := value]> (details r)).
End CaseResult.

(** What the two search coroutines return: the case result with the keys
    they add. *)
Module SearchResult.
Record t : Type := mk {
  result : CaseResult.t;
  search_type : str;
  cnr : option str;
  case_details : option (str * str * str)
}.
End SearchResult.

(** One row of a cause list. *)
Module CauseListEntry.
Record t : Type := mk {
  serial_number : str;
  case_number : str;
  parties : str;
  advocate : str;
  purpose : str
}.
End CauseListEntry.

Module Metadata.
Record t : Type := mk {
  state_code : str;
  district_code : str;
  court_complex_code : str;
  court_code : option str;
  date : str;
  fetched_at : str
}.
End Metadata.

(** The cause-list dictionary.  A key the code does not set is [None]:
    [_parse_cause_list] sets [total_cases] and [cases], [fetch_cause_list]
    adds [metadata], and its handler builds [{"error": ..., "cases": []}]. *)
Module CauseList.
Record t : Type := mk {
  total_cases : option nat;
  cases : list CauseListEntry.t;
  metadata : option Metadata.t;
  error : option str
}.
End CauseList.

(** What the awaited [session.get] / [session.post] hands back. *)
Module Response.
Record t : Type := mk {
  status_code : Z;
  content_type : option str;   (* headers.get('content-type') *)
  text : str;
  content : list Init.Byte.byte
}.
End Response.

(** File-system calls of [download_cause_list_pdf]: [os.makedirs],
    [open(path, 'wb')] (which creates or empties the file), [f.write] and the
    close at the end of the [with] block. *)
Inductive os_call : Type :=
| Makedirs (path : str)
| OpenWrite (path : str)
| Write (path : str) (data : list Init.Byte.byte)
| Close (path : str).

(** [for x in l: state = body(state, x)], stopping at the first exception. *)
Fixpoint for_each {A S : Type} (body : S -> A -> py S) (l : list A) (s : S) : py S :=
  match l with
  | [] => Ok s
  | x :: l' =>
      match body s x with
      | Ok s' => for_each body l' s'
      | Raise e => Raise e
      end
  end.

(** [try: body  except Exception: handler] *)
Definition try_except {A : Type} (body : py A) (handler : exn -> A) : A :=
  match body with
  | Ok a => a
  | Raise e => handler e
  end.

(* ===================================================================== *)
(** * The scraper *)
(* ===================================================================== *)

Section ECourtsScraper.

Context `{Unicode}.

(** [BeautifulSoup(html, 'html.parser')]: the tree, or the exception the
    parser raises on markup it rejects. *)
Variable BeautifulSoup : str -> py node.

(** ** Location fetchers *)

(** The body of the loop over options, shared by the four fetchers:
    [value = option.get('value', '').strip(); text = option.text.strip();
     if value and value != '0': append]. *)
Definition append_option (acc : list LocationEntry.t) (opt : node)
  : list LocationEntry.t :=
  let value := PyStr.strip (get opt "value") in
  let text := stripped_text opt in
  if PyStr.truthy value && negb (PyStr.eqb value "0")
  then acc ++ [LocationEntry.mk value text]
  else acc.

(** [for option in scope.find_all('option'): ...] from an empty list. *)
Definition collect_options (scope : node) : list LocationEntry.t :=
  foldl append_option [] (find_all "option" scope).

Definition _get_default_states : list LocationEntry.t :=
  [ LocationEntry.mk "1" "Delhi";
    LocationEntry.mk "2" "Maharashtra";
    LocationEntry.mk "3" "Karnataka";
    LocationEntry.mk "4" "Tamil Nadu";
    LocationEntry.mk "5" "Gujarat";
    LocationEntry.mk "6" "Rajasthan";
    LocationEntry.mk "7" "West Bengal";
    LocationEntry.mk "8" "Uttar Pradesh";
    LocationEntry.mk "9" "Madhya Pradesh";
    LocationEntry.mk "10" "Punjab" ].

(** [soup.find('select', {'id': 'state_code'}) or
     soup.find('select', {'name': 'state_code'})]; a tag is always truthy. *)
Definition state_select (soup : node) : option node :=
  match find_attr "select" "id" "state_code" soup with
  | Some sel => Some sel
  | None => find_attr "select" "name" "state_code" soup
  end.

Definition fetch_states (http : py Response.t) : list LocationEntry.t :=
  try_except
    (response ← http;
     soup ← BeautifulSoup (Response.text response);
     let states :=
       match state_select soup with
       | Some sel => collect_options sel
       | None => []
       end in
     let states :=
       match states with
       | [] => _get_default_states
       | _ => states
       end in
     Ok states)
    (fun _ => _get_default_states).

Definition fetch_districts (http : py Response.t) : list LocationEntry.t :=
  try_except
    (response ← http;
     soup ← BeautifulSoup (Response.text response);
     Ok (collect_options soup))
    (fun _ => []).

Definition fetch_court_complexes (http : py Response.t) : list LocationEntry.t :=
  try_except
    (response ← http;
     soup ← BeautifulSoup (Response.text response);
     Ok (collect_options soup))
    (fun _ => []).

Definition fetch_courts (http : py Response.t) : list LocationEntry.t :=
  try_except
    (response ← http;
     soup ← BeautifulSoup (Response.text response);
     Ok (collect_options soup))
    (fun _ => []).

(** ** Case result interpreter *)

(** The dictionary [_parse_case_result] starts from. *)
Definition initial_result (case_id : str) : CaseResult.t :=
  CaseResult.mk case_id false false false None None None None ∅.

Definition is_hearing_label (label : str) : bool :=
  PyStr.contains "hearing date" label || PyStr.contains "next date" label.

(** The [try] block on a hearing-date row: a date that fails to parse is
    passed over by the bare [except]. *)
Definition classify (today tomorrow : date) (result : CaseResult.t) (value : str)
  : CaseResult.t :=
  match Strptime.strptime value with
  | Ok hearing_date =>
      if date_eqb hearing_date today then
        CaseResult.set_found (CaseResult.set_listed_today result true) true
      else if date_eqb hearing_date tomorrow then
        CaseResult.set_found (CaseResult.set_listed_tomorrow result true) true
      else result
  | Raise _ => result
  end.

(** What one (label, value) pair does to the result. *)
Definition apply_row (today tomorrow : date) (result : CaseResult.t)
  (label value : str) : CaseResult.t :=
  let result := CaseResult.set_detail result label value in
  let result :=
    if is_hearing_label label
    then classify today tomorrow (CaseResult.set_next_hearing_date result (Some value)) value
    else result in
  let result :=
    if PyStr.contains "court" label
    then CaseResult.set_court_name result (Some value) else result in
  let result :=
    if PyStr.contains "serial" label || PyStr.contains "sr." label
    then CaseResult.set_serial_number result (Some value) else result in
  let result :=
    if PyStr.contains "status" label
    then CaseResult.set_case_status result (Some value) else result in
  result.

(** The body of [for row in rows]. *)
Definition case_row (today tomorrow : date) (result : CaseResult.t) (row : node)
  : py CaseResult.t :=
  let cells := find_all "td" row in
  if (2 <=? length cells)%nat then
    c0 ← subscript cells 0;
    c1 ← subscript cells 1;
    let label := PyStr.lower (stripped_text c0) in
    let value := stripped_text c1 in
    Ok (apply_row today tomorrow result label value)
  else Ok result.

(** [today] is the value of [datetime.now().date()] when the call runs. *)
Definition _parse_case_result (today : date) (html_content case_id : str)
  : py CaseResult.t :=
  soup ← BeautifulSoup html_content;
  let result := initial_result case_id in
  tomorrow ← add_one_day today;
  let rows := find_all "tr" soup in
  for_each (case_row today tomorrow) rows result.

Definition search_case_by_cnr (today : date) (http : py Response.t) (cnr : str)
  : option SearchResult.t :=
  try_except
    (response ← http;
     result ← _parse_case_result today (Response.text response) cnr;
     Ok (Some (SearchResult.mk result "CNR" (Some cnr) None)))
    (fun _ => None).

Definition search_case_by_details (today : date) (http : py Response.t)
  (case_type case_number case_year : str) : option SearchResult.t :=
  try_except
    (response ← http;
     result ← _parse_case_result today (Response.text response)
                (case_type ++ lit "/" ++ case_number ++ lit "/" ++ case_year);
     Ok (Some (SearchResult.mk result "DETAILS" None
                 (Some (case_type, case_number, case_year)))))
    (fun _ => None).

(** ** Cause list interpreter *)

(** The dictionary literal built for a row that passed the guard. *)
Definition build_case (cells : list node) : py CauseListEntry.t :=
  c0 ← subscript cells 0;
  c1 ← subscript cells 1;
  c2 ← subscript cells 2;
  advocate ← (if (3 <? length cells)%nat
              then c3 ← subscript cells 3; Ok (stripped_text c3)
              else Ok []);
  purpose ← (if (4 <? length cells)%nat
             then c4 ← subscript cells 4; Ok (stripped_text c4)
             else Ok []);
  Ok (CauseListEntry.mk (stripped_text c0) (stripped_text c1) (stripped_text c2)
        advocate purpose).

(** The body of [for row in rows]. *)
Definition cause_row (cases : list CauseListEntry.t) (row : node)
  : py (list CauseListEntry.t) :=
  let cells := find_all "td" row in
  if (4 <=? length cells)%nat then
    case ← build_case cells;
    Ok (cases ++ [case])
  else Ok cases.

Definition _parse_cause_list (html_content : str) : py CauseList.t :=
  soup ← BeautifulSoup html_content;
  cases ←
    match find "table" soup with
    | Some table =>
        let rows := drop 1 (find_all "tr" table) in
        for_each cause_row rows []
    | None => Ok []
    end;
  Ok (CauseList.mk (Some (length cases)) cases None None).

(** [now_iso] is the value of [datetime.now().isoformat()] when the
    metadata is attached. *)
Definition fetch_cause_list (now_iso : str) (http : py Response.t)
  (state_code district_code court_complex_code : str)
  (court_code : option str) (date : str) : CauseList.t :=
  try_except
    (response ← http;
     cause_list ← _parse_cause_list (Response.text response);
     Ok (CauseList.mk (CauseList.total_cases cause_list) (CauseList.cases cause_list)
           (Some (Metadata.mk state_code district_code court_complex_code
                    court_code date now_iso))
           (CauseList.error cause_list)))
    (fun e => CauseList.mk None [] None (Some (exn_message e))).

(** ** Document download *)

(** [os.path.join('downloads', f"cause_list_{...}_{date.replace('-', '')}.pdf")];
    the file name starts with a letter, so on every platform the join is the
    directory, the separator [os_sep] of the platform and the file name. *)
Definition pdf_path (os_sep : str)
  (state_code district_code court_complex_code date : str) : str :=
  lit "downloads" ++ os_sep ++ lit "cause_list_" ++ state_code ++ lit "_"
    ++ district_code ++ lit "_" ++ court_complex_code ++ lit "_"
    ++ PyStr.remove_char (Strptime.chr "-") date ++ lit ".pdf".

Definition is_pdf_response (response : Response.t) : bool :=
  (Response.status_code response =? 200) &&
  match Response.content_type response with
  | Some ct => PyStr.eqb ct "application/pdf"
  | None => false
  end.

(** [os_ok c] tells whether the operating system lets the call [c] through
    (otherwise it raises [OSError]).  The second component of the result
    lists, in order, the file-system calls that went through; a write that
    raised is not listed, though it may have left part of its data.  When
    [f.write] raises, the [with] block still closes the file. *)
Definition download_cause_list_pdf (os_sep : str) (os_ok : os_call -> bool)
  (http : py Response.t)
  (state_code district_code court_complex_code date : str)
  : option str * list os_call :=
  match http with
  | Raise _ => (None, [])
  | Ok response =>
      if is_pdf_response response then
        let mk := Makedirs "downloads" in
        if os_ok mk then
          let filepath := pdf_path os_sep state_code district_code court_complex_code date in
          let op := OpenWrite filepath in
          let wr := Write filepath (Response.content response) in
          let cl := Close filepath in
          if os_ok op then
            if os_ok wr then
              if os_ok cl then (Some filepath, [mk; op; wr; cl])
              else (None, [mk; op; wr])
            else (None, [mk; op] ++ (if os_ok cl then [cl] else []))
          else (None, [mk])
        else (None, [])
      else (None, [])
  end.

End ECourtsScraper.

(* ===================================================================== *)
(** * The session and the requests *)
(* ===================================================================== *)

(** [self.base_url] and [self.headers], as [__init__] sets them. *)
Definition base_url : str := "https://services.ecourts.gov.in/ecourtindia_v6".

Definition headers : gmap str str :=
  <[lit "User-Agent" := lit "Mozilla/5.0 (Windows NT 10.0; Win64; x64) AppleWebKit/537.36"]>
    (<[lit "Accept" := lit "application/json, text/javascript, */*; q=0.01"]>
       (<[lit "Accept-Language" := lit "en-US,en;q=0.9"]>
          (<[lit "X-Requested-With" := lit "XMLHttpRequest"]> ∅))).

(** An [httpx.AsyncClient]: [ident] tells one client object from another;
    the timeout is in seconds. *)
Module Client.
Record t : Type := mk { ident : nat; client_headers : gmap str str; timeout : Z }.
End Client.

(** The scraper object: [self.session]. *)
Module Scraper.
Record t : Type := mk { session : option Client.t }.
End Scraper.

Definition __init__ : Scraper.t := Scraper.mk None.

(** [_get_session]: [created] counts the clients constructed so far and
    names the next one.  The result is the client handed back, the new count
    and the object afterwards.  A client object is always truthy. *)
Definition _get_session (created : nat) (self : Scraper.t)
  : Client.t * nat * Scraper.t :=
  match Scraper.session self with
  | Some client => (client, created, self)
  | None =>
      let client := Client.mk created headers 30 in
      (client, S created, Scraper.mk (Some client))
  end.

(** [n] calls of [_get_session] in a row: the clients handed back, the count
    and the object at the end. *)
Fixpoint get_sessions (n : nat) (created : nat) (self : Scraper.t)
  : list Client.t * nat * Scraper.t :=
  match n with
  | O => ([], created, self)
  | S n' =>
      let '(client, created', self') := _get_session created self in
      let '(clients, created'', self'') := get_sessions n' created' self' in
      (client :: clients, created'', self'')
  end.

(** A request as the coroutines hand it to [session.get] / [session.post]. *)
Module Request.
Record t : Type := mk { method : str; url : str; data : gmap str str }.
End Request.

(** [if v: data[key] = v] for an optional string [v]. *)
Definition put_if_truthy (key : str) (v : option str)
  (data : gmap str str) : gmap str str :=
  match v with
  | Some s => if PyStr.truthy s then <[key := s]> data else data
  | None => data
  end.

Definition states_request : Request.t :=
  Request.mk "GET" (base_url ++ lit "/?p=cause_list/") ∅.

Definition districts_request (state_code : str) : Request.t :=
  Request.mk "POST" (base_url ++ lit "/ajax/get_district.php")
    (<[lit "state_code" := state_code]> ∅).

Definition court_complexes_request (state_code district_code : str) : Request.t :=
  Request.mk "POST" (base_url ++ lit "/ajax/get_court_complex.php")
    (<[lit "dist_code" := district_code]> (<[lit "state_code" := state_code]> ∅)).

Definition courts_request (state_code district_code complex_code : str) : Request.t :=
  Request.mk "POST" (base_url ++ lit "/ajax/get_court.php")
    (<[lit "court_complex_code" := complex_code]>
       (<[lit "dist_code" := district_code]> (<[lit "state_code" := state_code]> ∅))).

Definition cnr_request (cnr : str) (state_code district_code : option str)
  : Request.t :=
  Request.mk "POST" (base_url ++ lit "/ajax/search_case_cnr.php")
    (put_if_truthy "dist_code" district_code
       (put_if_truthy "state_code" state_code (<[lit "cnr" := cnr]> ∅))).

Definition details_request
  (state_code district_code court_code case_type case_number case_year : str)
  : Request.t :=
  Request.mk "POST" (base_url ++ lit "/ajax/search_case_details.php")
    (<[lit "case_year" := case_year]>
       (<[lit "case_no" := case_number]>
          (<[lit "case_type" := case_type]>
             (<[lit "court_code" := court_code]>
                (<[lit "dist_code" := district_code]>
                   (<[lit "state_code" := state_code]> ∅)))))).

(** The payload shared by [fetch_cause_list] and [download_cause_list_pdf]. *)
Definition cause_list_data (state_code district_code court_complex_code : str)
  (court_code : option str) (date : str) : gmap str str :=
  put_if_truthy "court_code" court_code
    (<[lit "date" := date]>
       (<[lit "court_complex_code" := court_complex_code]>
          (<[lit "dist_code" := district_code]> (<[lit "state_code" := state_code]> ∅)))).

Definition cause_list_request (state_code district_code court_complex_code : str)
  (court_code : option str) (date : str) : Request.t :=
  Request.mk "POST" (base_url ++ lit "/ajax/get_cause_list.php")
    (cause_list_data state_code district_code court_complex_code court_code date).

Definition pdf_request (state_code district_code court_complex_code : str)
  (court_code : option str) (date : str) : Request.t :=
  Request.mk "POST" (base_url ++ lit "/ajax/download_cause_list_pdf.php")
    (cause_list_data state_code district_code court_complex_code court_code date).

(* ===================================================================== *)
(** * Vocabulary of the properties *)
(* ===================================================================== *)

Section Vocabulary.

Context `{Unicode}.

(** An option is valid when its trimmed value is neither empty nor ["0"]. *)
Definition valid_option (opt : node) : bool :=
  let value := PyStr.strip (get opt "value") in
  negb (PyStr.eqb value []) && negb (PyStr.eqb value "0").

Definition option_entry (opt : node) : LocationEntry.t :=
  LocationEntry.mk (PyStr.strip (get opt "value")) (stripped_text opt).

(** The valid options below [scope], as entries, in document order. *)
Definition valid_entries (scope : node) : list LocationEntry.t :=
  option_entry <$> List.filter valid_option (find_all "option" scope).

(** The entries of the state select of a document ([[]] without one). *)
Definition state_entries (soup : node) : list LocationEntry.t :=
  match state_select soup with
  | Some sel => valid_entries sel
  | None => []
  end.

(** A key/value row: a table row with at least two cells, read as the
    lower-cased trimmed text of the first and the trimmed text of the
    second. *)
Definition row_pair (row : node) : option (str * str) :=
  match find_all "td" row with
  | c0 :: c1 :: _ => Some (PyStr.lower (stripped_text c0), stripped_text c1)
  | _ => None
  end.

Definition key_value_rows (soup : node) : list (str * str) :=
  omap row_pair (find_all "tr" soup).

(** The label of a hearing-date row. *)
Definition hearing_label (label : str) : Prop :=
  PyStr.contains "hearing date" label = true \/ PyStr.contains "next date" label = true.

(** [value] parses under ["%d-%m-%Y"] to the date [d]. *)
Definition parses_to (value : str) (d : date) : Prop :=
  Strptime.strptime value = Ok d.

Definition parses_tob (value : str) (d : date) : bool :=
  match Strptime.strptime value with
  | Ok h => date_eqb h d
  | Raise _ => false
  end.

(** The result after the pairs [ps], starting from [r]. *)
Definition run_rows (today tomorrow : date) (r : CaseResult.t)
  (ps : list (str * str)) : CaseResult.t :=
  foldl (fun r p => apply_row today tomorrow r p.1 p.2) r ps.

(** The cells of a cause-list row, and the entry read off them. *)
Definition cell_text (cells : list node) (i : nat) : str :=
  match cells !! i with
  | Some c => stripped_text c
  | None => []
  end.

Definition entry_of_cells (cells : list node) : CauseListEntry.t :=
  CauseListEntry.mk (cell_text cells 0) (cell_text cells 1) (cell_text cells 2)
    (cell_text cells 3) (cell_text cells 4).

(** The rows of the first table after its first row; none without a table. *)
Definition data_rows (soup : node) : list node :=
  match find "table" soup with
  | Some table => drop 1 (find_all "tr" table)
  | None => []
  end.

Definition has_four_cells (row : node) : bool :=
  (4 <=? length (find_all "td" row))%nat.

(** The three flags after a run of pairs: each is what it was, or was set by
    some pair. *)
Definition sets_found (today tomorrow : date) (p : str * str) : bool :=
  is_hearing_label p.1 && (parses_tob p.2 today || parses_tob p.2 tomorrow).
Definition sets_today (today : date) (p : str * str) : bool :=
  is_hearing_label p.1 && parses_tob p.2 today.
Definition sets_tomorrow (today tomorrow : date) (p : str * str) : bool :=
  is_hearing_label p.1 && negb (parses_tob p.2 today) && parses_tob p.2 tomorrow.

(** The keys of a case result that no date comparison writes. *)
Definition untimed (r : CaseResult.t)
  : str * option str * option str * option str * option str * gmap str str :=
  (CaseResult.case_id r, CaseResult.serial_number r, CaseResult.court_name r,
   CaseResult.next_hearing_date r, CaseResult.case_status r, CaseResult.details r).

(** The same response under another status code. *)
Definition with_status (response : Response.t) (status : Z) : Response.t :=
  Response.mk status (Response.content_type response) (Response.text response)
    (Response.content response).

(** A cause list with the time of the fetch replaced. *)
Definition with_fetched_at (now_iso : str) (cl : CauseList.t) : CauseList.t :=
  CauseList.mk (CauseList.total_cases cl) (CauseList.cases cl)
    (match CauseList.metadata cl with
     | Some m =>
         Some (Metadata.mk (Metadata.state_code m) (Metadata.district_code m)
                 (Metadata.court_complex_code m) (Metadata.court_code m)
                 (Metadata.date m) now_iso)
     | None => None
     end)
    (CauseList.error cl).

(** The value of the last pair whose label satisfies [P]. *)
Fixpoint last_value (P : str -> bool) (ps : list (str * str)) : option str :=
  match ps with
  | [] => None
  | p :: ps' =>
      match last_value P ps' with
      | Some w => Some w
      | None => if P p.1 then Some p.2 else None
      end
  end.

(** The label tests of the four optional keys. *)
Definition is_court_label (label : str) : bool := PyStr.contains "court" label.
Definition is_serial_label (label : str) : bool :=
  PyStr.contains "serial" label || PyStr.contains "sr." label.
Definition is_status_label (label : str) : bool := PyStr.contains "status" label.

(** A string that [strip] leaves alone: it neither begins nor ends with a
    blank. *)
Definition trimmed (s : str) : Prop := PyStr.strip s = s.

(** A date written out as [dd-mm-yyyy]: two digits, two digits, four digits,
    zero-padded. *)
Definition digit_char (n : Z) : N := Z.to_N (48 + n).

Definition two_digits (n : Z) : str :=
  [digit_char (n / 10); digit_char (n mod 10)].

Definition four_digits (n : Z) : str :=
  [digit_char (n / 1000); digit_char (n / 100 mod 10);
   digit_char (n / 10 mod 10); digit_char (n mod 10)].

Definition format_date (d : date) : str :=
  two_digits (day d) ++ lit "-" ++ two_digits (month d) ++ lit "-" ++ four_digits (year d).

(** A select-list fragment written back from entries: one option per entry,
    the code as value and the name as text. *)
Definition options_of (entries : list LocationEntry.t) : node :=
  Tag "[document]" ∅
    ((fun e => Tag "option" {[ lit "value" := LocationEntry.code e ]}
                 [NavigableString (LocationEntry.name e)]) <$> entries).

End Vocabulary.

(* ===================================================================== *)
(** * Example documents *)
(* ===================================================================== *)

(** The Unicode tables as far as the examples read them: every text that is
    lower-cased in an example is ASCII, so [unicode_lower] is never reached, and
    the digits are ASCII or Devanagari (U+0966 to U+096F). *)
Definition sample_unicode : Unicode :=
  {| unicode_lower := fun s => s;
     unicode_decimal := fun c =>
       if ((0x966 <=? c) && (c <=? 0x96f))%N then Some (Z.of_N c - 0x966) else None |}.

(** A parser that answers [doc] whatever the text: the stand-in for
    [BeautifulSoup] in the examples, each of which names the text meant. *)
Definition parsed_as (doc : node) : str -> py node := fun _ => Ok doc.

(** A parser on text it rejects. *)
Definition rejected : str -> py node :=
  fun _ => Raise (ParserRejectedMarkup "AssertionError: unknown status keyword in marked section").

Definition td (s : str) : node := Tag "td" ∅ [NavigableString s].
Definition tr (cells : list node) : node := Tag "tr" ∅ cells.
Definition document (contents : list node) : node := Tag "[document]" ∅ contents.

(** A case-detail panel with two hearing-date rows.  As markup:
    [<table><tr><td>Court Name</td><td>District Court, Saket</td></tr>
     <tr><td>First Hearing Date</td><td>FIRST</td></tr>
     <tr><td> Next Hearing Date </td><td>NEXT</td></tr>
     <tr><td>Case Status</td><td>Pending</td></tr></table>]. *)
Definition case_panel (first next : str) : node :=
  document
    [Tag "table" ∅
       [ tr [td "Court Name"; td "District Court, Saket"];
         tr [td "First Hearing Date"; td first];
         tr [td " Next Hearing Date "; td next];
         tr [td "Case Status"; td "Pending"] ]].

Definition case_panel_html : str := "<table>...case panel...</table>".

Definition nov4 : date := mkDate 2026 11 4.
Definition nov5 : date := mkDate 2026 11 5.
Definition nov9 : date := mkDate 2026 11 9.

(** 04-11-2026 with the year in Devanagari digits. *)
Definition nov4_devanagari : str :=
  lit "04-11-" ++ [0x968; 0x966; 0x968; 0x96c]%N.

(** A cause list as markup:
    [<table><tr><th>Sr</th>...</tr> <tr><td>..</td>...</tr> ...</table>]:
    a header row, then three hearings, the second with [cells2] as cells. *)
Definition cause_table (cells2 : list node) : node :=
  document
    [Tag "table" ∅
       [ tr [Tag "th" ∅ [NavigableString "Sr"]; Tag "th" ∅ [NavigableString "Case"]];
         tr [td "1"; td " CS/101/2026 "; td "Asha vs Ravi"; td "Mr. Rao"; td "Arguments"];
         tr cells2;
         tr [td "3"; td "CS/103/2026"; td "State vs Mohan"; td "Ms. Bose"; td "Orders"] ]].

Definition cause_table_html : str := "<table>...cause list...</table>".

(** Two hearings and no header row. *)
Definition headless_table : node :=
  Tag "table" ∅
    [ tr [td "1"; td "CS/101/2026"; td "Asha vs Ravi"; td "Mr. Rao"];
      tr [td "2"; td "CS/102/2026"; td "Lata vs Om"; td "Ms. Bose"] ].

Definition option_tag (value label : str) : node :=
  Tag "option" {[ lit "value" := value ]} [NavigableString label].

(** [<option value='0'>Select</option><option value='5'>Goa</option>
     <option value=''>--</option><option value=' 7 '> Kerala </option>] *)
Definition option_fragment : node :=
  document
    [ option_tag "0" "Select"; option_tag "5" "Goa"; option_tag "" "--";
      option_tag " 7 " " Kerala " ].

(** Options padded with an EM space (U+2003) and an ideographic space
    (U+3000). *)
Definition padded_option_fragment : node :=
  document
    [ option_tag [0x3000]%N "Select";
      option_tag ([0x2003]%N ++ lit "7" ++ [0x3000]%N) ([0x2003]%N ++ lit "Kerala" ++ [0x2003]%N) ].

Definition html_response (status : Z) : Response.t :=
  Response.mk status (Some (lit "text/html")) "<html>...</html>" [].

(** The first bytes of a PDF file. *)
Definition pdf_bytes : list Init.Byte.byte :=
  [Init.Byte.x25; Init.Byte.x50; Init.Byte.x44; Init.Byte.x46].

Definition pdf_response (status : Z) : Response.t :=
  Response.mk status (Some (lit "application/pdf")) [] pdf_bytes.

Definition os_allows_all : os_call -> bool := fun _ => true.

(** A file system on which every write fails (a full disk). *)
Definition os_disk_full : os_call -> bool :=
  fun c => match c with Write _ _ => false | _ => true end.

Definition posix_sep : str := "/".

(* ===================================================================== *)
(** * Basic facts *)
(* ===================================================================== *)

Section Properties.

Context `{Unicode}.

Lemma eqb_eq (a b : str) : PyStr.eqb a b = true <-> a = b.
Proof. apply bool_decide_eq_true. Qed.

Lemma eqb_neq (a b : str) : PyStr.eqb a b = false <-> a <> b.
Proof. apply bool_decide_eq_false. Qed.

Lemma eqb_refl (a : str) : PyStr.eqb a a = true.
Proof. by apply eqb_eq. Qed.

Lemma date_eqb_eq (a b : date) : date_eqb a b = true <-> a = b.
Proof.
  destruct a as [y1 m1 d1], b as [y2 m2 d2]; unfold date_eqb; simpl.
  rewrite !andb_true_iff, !Z.eqb_eq. split.
  - intros [[-> ->] ->]. reflexivity.
  - intros Heq. injection Heq as -> -> ->. auto.
Qed.

Lemma parses_tob_iff (value : str) (d : date) :
  parses_tob value d = true <-> parses_to value d.
Proof.
  unfold parses_tob, parses_to. destruct (Strptime.strptime value) as [h|e].
  - rewrite date_eqb_eq. split; [intros ->; reflexivity | intros Heq; injection Heq; auto].
  - split; discriminate.
Qed.

Lemma next_day_neq (d : date) : next_day d <> d.
Proof.
  destruct d as [y m dd]. unfold next_day; simpl.
  destruct (dd <? _); [|destruct (m <? 12)]; intros Heq; injection Heq; lia.
Qed.

Lemma add_one_day_neq (today tomorrow : date) :
  add_one_day today = Ok tomorrow -> tomorrow <> today.
Proof.
  unfold add_one_day. destruct (date_eqb today date_max); [discriminate|].
  intros Heq; injection Heq as <-. apply next_day_neq.
Qed.

Lemma is_hearing_label_iff (label : str) :
  is_hearing_label label = true <-> hearing_label label.
Proof. unfold is_hearing_label, hearing_label. apply orb_true_iff. Qed.

(** A loop whose body never raises is a left fold. *)
Lemma for_each_fold {A S : Type} (body : S -> A -> py S) (f : S -> A -> S)
  (l : list A) (s : S) :
  (forall s x, body s x = Ok (f s x)) -> for_each body l s = Ok (foldl f s l).
Proof.
  intros Hbody. revert s. induction l as [|x l IH]; intros s; simpl.
  - reflexivity.
  - rewrite Hbody. apply IH.
Qed.

Lemma existsb_elem_of {A : Type} (f : A -> bool) (l : list A) :
  existsb f l = true <-> exists x, x ∈ l /\ f x = true.
Proof.
  rewrite existsb_exists. split; intros (x & Hx & Hf); exists x; split; auto;
    by apply list_elem_of_In.
Qed.

(** ** The option loop *)

Lemma truthy_nonempty (s : str) : PyStr.truthy s = negb (PyStr.eqb s []).
Proof. destruct s; reflexivity. Qed.

Lemma append_option_spec (acc : list LocationEntry.t) (opt : node) :
  append_option acc opt =
  acc ++ (if valid_option opt then [option_entry opt] else []).
Proof.
  unfold append_option, valid_option, option_entry. rewrite truthy_nonempty.
  destruct (negb _ && negb _); [reflexivity | by rewrite app_nil_r].
Qed.

Lemma foldl_append_option (l : list node) (acc : list LocationEntry.t) :
  foldl append_option acc l = acc ++ (option_entry <$> List.filter valid_option l).
Proof.
  revert acc. induction l as [|opt l IH]; intros acc; simpl.
  - by rewrite app_nil_r.
  - rewrite IH, append_option_spec. destruct (valid_option opt); simpl.
    + by rewrite <- app_assoc.
    + by rewrite app_nil_r.
Qed.

Lemma collect_options_spec (scope : node) : collect_options scope = valid_entries scope.
Proof. unfold collect_options, valid_entries. by rewrite foldl_append_option. Qed.

Lemma valid_option_code (opt : node) :
  valid_option opt = true ->
  LocationEntry.code (option_entry opt) <> [] /\
  LocationEntry.code (option_entry opt) <> lit "0".
Proof.
  unfold valid_option, option_entry; simpl.
  rewrite andb_true_iff, !negb_true_iff, !eqb_neq. tauto.
Qed.

(** ** The row loop of the case-result interpreter *)

Lemma case_row_spec (today tomorrow : date) (r : CaseResult.t) (row : node) :
  case_row today tomorrow r row =
  Ok (match row_pair row with
      | Some p => apply_row today tomorrow r p.1 p.2
      | None => r
      end).
Proof.
  unfold case_row, row_pair.
  destruct (find_all "td" row) as [|c0 [|c1 rest]]; reflexivity.
Qed.

Lemma case_rows_spec (today tomorrow : date) (rows : list node) (r : CaseResult.t) :
  for_each (case_row today tomorrow) rows r =
  Ok (run_rows today tomorrow r (omap row_pair rows)).
Proof.
  revert r. induction rows as [|row rows IH]; intros r; simpl.
  - reflexivity.
  - rewrite case_row_spec. destruct (row_pair row) as [p|]; simpl; apply IH.
Qed.

Lemma parse_case_result_spec (BeautifulSoup : str -> py node)
  (today tomorrow : date) (html_content case_id : str) (soup : node) :
  BeautifulSoup html_content = Ok soup ->
  add_one_day today = Ok tomorrow ->
  _parse_case_result BeautifulSoup today html_content case_id =
  Ok (run_rows today tomorrow (initial_result case_id) (key_value_rows soup)).
Proof.
  intros Hsoup Htom. unfold _parse_case_result. rewrite Hsoup. simpl.
  rewrite Htom. simpl. apply case_rows_spec.
Qed.

Lemma parse_case_result_rejected (BeautifulSoup : str -> py node)
  (today : date) (html_content case_id : str) (e : exn) :
  BeautifulSoup html_content = Raise e ->
  _parse_case_result BeautifulSoup today html_content case_id = Raise e.
Proof. intros Hsoup. unfold _parse_case_result. by rewrite Hsoup. Qed.

(** What one pair does to each flag. *)
Ltac split_row :=
  unfold apply_row, classify, parses_tob;
  repeat match goal with
         | |- context [if ?b then _ else _] => destruct b
         | |- context [match ?m with Ok _ => _ | Raise _ => _ end] => destruct m
         end; simpl; rewrite ?orb_false_r, ?orb_true_r; try reflexivity.

Lemma apply_row_found (today tomorrow : date) (r : CaseResult.t) (label value : str) :
  CaseResult.found (apply_row today tomorrow r label value) =
  CaseResult.found r ||
  (is_hearing_label label && (parses_tob value today || parses_tob value tomorrow)).
Proof. split_row. Qed.

Lemma apply_row_listed_today (today tomorrow : date) (r : CaseResult.t)
  (label value : str) :
  CaseResult.listed_today (apply_row today tomorrow r label value) =
  CaseResult.listed_today r || (is_hearing_label label && parses_tob value today).
Proof. split_row. Qed.

Lemma apply_row_listed_tomorrow (today tomorrow : date) (r : CaseResult.t)
  (label value : str) :
  CaseResult.listed_tomorrow (apply_row today tomorrow r label value) =
  CaseResult.listed_tomorrow r ||
  (is_hearing_label label && negb (parses_tob value today) && parses_tob value tomorrow).
Proof. split_row. Qed.

Lemma apply_row_next_hearing_date (today tomorrow : date) (r : CaseResult.t)
  (label value : str) :
  CaseResult.next_hearing_date (apply_row today tomorrow r label value) =
  if is_hearing_label label then Some value else CaseResult.next_hearing_date r.
Proof. split_row. Qed.

Lemma run_rows_app (today tomorrow : date) (r : CaseResult.t)
  (ps qs : list (str * str)) :
  run_rows today tomorrow r (ps ++ qs) =
  run_rows today tomorrow (run_rows today tomorrow r ps) qs.
Proof. unfold run_rows. apply foldl_app. Qed.

Lemma run_rows_found (today tomorrow : date) (ps : list (str * str))
  (r : CaseResult.t) :
  CaseResult.found (run_rows today tomorrow r ps) =
  CaseResult.found r || existsb (sets_found today tomorrow) ps.
Proof.
  revert r. induction ps as [|[l v] ps IH]; intros r; simpl.
  - by rewrite orb_false_r.
  - unfold run_rows in *. simpl. rewrite IH, apply_row_found.
    unfold sets_found at 2; simpl. by rewrite orb_assoc.
Qed.

Lemma run_rows_listed_today (today tomorrow : date) (ps : list (str * str))
  (r : CaseResult.t) :
  CaseResult.listed_today (run_rows today tomorrow r ps) =
  CaseResult.listed_today r || existsb (sets_today today) ps.
Proof.
  revert r. induction ps as [|[l v] ps IH]; intros r; simpl.
  - by rewrite orb_false_r.
  - unfold run_rows in *. simpl. rewrite IH, apply_row_listed_today.
    unfold sets_today at 2; simpl. by rewrite orb_assoc.
Qed.

Lemma run_rows_listed_tomorrow (today tomorrow : date) (ps : list (str * str))
  (r : CaseResult.t) :
  CaseResult.listed_tomorrow (run_rows today tomorrow r ps) =
  CaseResult.listed_tomorrow r || existsb (sets_tomorrow today tomorrow) ps.
Proof.
  revert r. induction ps as [|[l v] ps IH]; intros r; simpl.
  - by rewrite orb_false_r.
  - unfold run_rows in *. simpl. rewrite IH, apply_row_listed_tomorrow.
    unfold sets_tomorrow at 2; simpl. by rewrite orb_assoc.
Qed.

(** Pairs without a hearing label leave [next_hearing_date] alone. *)
Lemma run_rows_next_hearing_date_frame (today tomorrow : date)
  (ps : list (str * str)) (r : CaseResult.t) :
  Forall (fun p => ~ hearing_label p.1) ps ->
  CaseResult.next_hearing_date (run_rows today tomorrow r ps) =
  CaseResult.next_hearing_date r.
Proof.
  intros Hps. revert r. induction Hps as [|[l v] ps Hp _ IH]; intros r.
  - reflexivity.
  - unfold run_rows in *. simpl. rewrite IH, apply_row_next_hearing_date.
    simpl in Hp. rewrite <- is_hearing_label_iff in Hp.
    by destruct (is_hearing_label l).
Qed.

Lemma sets_today_iff (today : date) (p : str * str) :
  sets_today today p = true <-> hearing_label p.1 /\ parses_to p.2 today.
Proof.
  unfold sets_today. by rewrite andb_true_iff, is_hearing_label_iff, parses_tob_iff.
Qed.

Lemma sets_tomorrow_iff (today tomorrow : date) (p : str * str) :
  tomorrow <> today ->
  sets_tomorrow today tomorrow p = true <-> hearing_label p.1 /\ parses_to p.2 tomorrow.
Proof.
  intros Hne. unfold sets_tomorrow.
  rewrite !andb_true_iff, negb_true_iff, is_hearing_label_iff, parses_tob_iff.
  split; [tauto|]. intros [Hl Hp]. repeat split; auto.
  destruct (parses_tob p.2 today) eqn:Ht; [|reflexivity].
  apply parses_tob_iff in Ht. unfold parses_to in *. congruence.
Qed.

Lemma sets_found_iff (today tomorrow : date) (p : str * str) :
  sets_found today tomorrow p = true <->
  hearing_label p.1 /\ exists d, parses_to p.2 d /\ (d = today \/ d = tomorrow).
Proof.
  unfold sets_found.
  rewrite andb_true_iff, orb_true_iff, is_hearing_label_iff, !parses_tob_iff.
  split.
  - intros [Hl [Hp|Hp]]; split; eauto.
  - intros [Hl (d & Hp & [->| ->])]; auto.
Qed.

Lemma unparseable_sets_nothing (today tomorrow : date) (label value : str) (e : exn) :
  Strptime.strptime value = Raise e ->
  sets_found today tomorrow (label, value) = false /\
  sets_today today (label, value) = false /\
  sets_tomorrow today tomorrow (label, value) = false.
Proof.
  intros He. unfold sets_found, sets_today, sets_tomorrow, parses_tob; simpl.
  rewrite He. by rewrite !andb_false_r.
Qed.

Lemma key_value_rows_elem (soup : node) (label value : str) :
  (label, value) ∈ key_value_rows soup <->
  exists row c0 c1 rest,
    row ∈ find_all "tr" soup /\ find_all "td" row = c0 :: c1 :: rest /\
    label = PyStr.lower (stripped_text c0) /\ value = stripped_text c1.
Proof.
  unfold key_value_rows. rewrite list_elem_of_omap. split.
  - intros (row & Hrow & Hp). unfold row_pair in Hp.
    destruct (find_all "td" row) as [|c0 [|c1 rest]] eqn:Hc; try discriminate.
    injection Hp as <- <-. by exists row, c0, c1, rest.
  - intros (row & c0 & c1 & rest & Hrow & Hc & -> & ->).
    exists row. split; [done|]. unfold row_pair. by rewrite Hc.
Qed.

(** ** What the clock cannot reach *)

Lemma apply_row_untimed (d1 t1 d2 t2 : date) (r1 r2 : CaseResult.t)
  (label value : str) :
  untimed r1 = untimed r2 ->
  untimed (apply_row d1 t1 r1 label value) = untimed (apply_row d2 t2 r2 label value).
Proof.
  unfold untimed. intros Heq. injection Heq as Hid Hsn Hcn Hnh Hcs Hdt.
  unfold apply_row, classify.
  repeat match goal with
         | |- context [if ?b then _ else _] => destruct b
         | |- context [match ?m with Ok _ => _ | Raise _ => _ end] => destruct m
         end; simpl; congruence.
Qed.

Lemma run_rows_untimed (d1 t1 d2 t2 : date) (ps : list (str * str))
  (r1 r2 : CaseResult.t) :
  untimed r1 = untimed r2 ->
  untimed (run_rows d1 t1 r1 ps) = untimed (run_rows d2 t2 r2 ps).
Proof.
  revert r1 r2. induction ps as [|[l v] ps IH]; intros r1 r2 Heq.
  - exact Heq.
  - unfold run_rows in *. simpl. apply IH. by apply apply_row_untimed.
Qed.

(** A case result is its untimed keys and its three flags. *)
Lemma case_result_eq (r1 r2 : CaseResult.t) :
  untimed r1 = untimed r2 ->
  CaseResult.found r1 = CaseResult.found r2 ->
  CaseResult.listed_today r1 = CaseResult.listed_today r2 ->
  CaseResult.listed_tomorrow r1 = CaseResult.listed_tomorrow r2 ->
  r1 = r2.
Proof.
  destruct r1, r2. unfold untimed. simpl. intros [= -> -> -> -> -> ->] -> -> ->.
  reflexivity.
Qed.

(** ** The row loop of the cause-list interpreter *)

Lemma build_case_spec (cells : list node) :
  (4 <= length cells)%nat ->
  build_case cells =
  Ok (CauseListEntry.mk (cell_text cells 0) (cell_text cells 1) (cell_text cells 2)
        (cell_text cells 3)
        (if (4 <? length cells)%nat then cell_text cells 4 else [])).
Proof.
  intros Hlen. destruct cells as [|c0 [|c1 [|c2 [|c3 rest]]]]; simpl in Hlen; try lia.
  destruct rest as [|c4 rest]; reflexivity.
Qed.

Lemma cell_text_past_end (cells : list node) (i : nat) :
  (length cells <= i)%nat -> cell_text cells i = [].
Proof. intros Hlen. unfold cell_text. by rewrite lookup_ge_None_2. Qed.

Lemma cause_row_spec (cases : list CauseListEntry.t) (row : node) :
  cause_row cases row =
  Ok (cases ++ (if has_four_cells row then [entry_of_cells (find_all "td" row)] else [])).
Proof.
  unfold cause_row, has_four_cells.
  destruct (4 <=? length (find_all "td" row))%nat eqn:Hlen.
  - apply Nat.leb_le in Hlen. rewrite build_case_spec by done. simpl.
    unfold entry_of_cells.
    destruct (4 <? length (find_all "td" row))%nat eqn:H5; [reflexivity|].
    apply Nat.ltb_ge in H5. by rewrite (cell_text_past_end _ 4).
  - by rewrite app_nil_r.
Qed.

Lemma cause_rows_spec (rows : list node) (cases : list CauseListEntry.t) :
  for_each cause_row rows cases =
  Ok (cases ++ ((fun row => entry_of_cells (find_all "td" row))
                  <$> List.filter has_four_cells rows)).
Proof.
  revert cases. induction rows as [|row rows IH]; intros cases; simpl.
  - by rewrite app_nil_r.
  - rewrite cause_row_spec, IH. destruct (has_four_cells row); simpl.
    + by rewrite <- app_assoc.
    + by rewrite app_nil_r.
Qed.

Lemma parse_cause_list_spec (BeautifulSoup : str -> py node) (html_content : str)
  (soup : node) :
  BeautifulSoup html_content = Ok soup ->
  _parse_cause_list BeautifulSoup html_content =
  let cases := (fun row => entry_of_cells (find_all "td" row))
                 <$> List.filter has_four_cells (data_rows soup) in
  Ok (CauseList.mk (Some (length cases)) cases None None).
Proof.
  intros Hsoup. unfold _parse_cause_list, data_rows. rewrite Hsoup. simpl.
  destruct (find "table" soup) as [table|]; [|reflexivity].
  by rewrite cause_rows_spec.
Qed.

Lemma parse_cause_list_rejected (BeautifulSoup : str -> py node) (html_content : str)
  (e : exn) :
  BeautifulSoup html_content = Raise e ->
  _parse_cause_list BeautifulSoup html_content = Raise e.
Proof. intros Hsoup. unfold _parse_cause_list. by rewrite Hsoup. Qed.

(* ===================================================================== *)
(** * The case-result interpreter *)
(* ===================================================================== *)

(** C1. On markup the parser accepts, and whenever the evaluation date has a
    following day, the interpreter returns a result, and its [found] is true
    exactly when some key/value row whose label contains "hearing date" or
    "next date" has a value that [strptime] parses under "%d-%m-%Y" to the
    evaluation date or to the day after it. *)
Theorem found_iff_hearing_today_or_tomorrow
  (BeautifulSoup : str -> py node) (today tomorrow : date)
  (html_content case_id : str) (soup : node) :
  BeautifulSoup html_content = Ok soup ->
  add_one_day today = Ok tomorrow ->
  exists r,
    _parse_case_result BeautifulSoup today html_content case_id = Ok r /\
    (CaseResult.found r = true <->
     exists label value hearing_date,
       (label, value) ∈ key_value_rows soup /\
       hearing_label label /\
       parses_to value hearing_date /\
       (hearing_date = today \/ hearing_date = tomorrow)).
Proof.
  intros Hsoup Htom. eexists. split; [by apply parse_case_result_spec|].
  rewrite run_rows_found. simpl. rewrite existsb_elem_of. split.
  - intros ([l v] & Hin & Hs). apply sets_found_iff in Hs as [Hl (d & Hp & Hd)].
    exists l, v, d. auto.
  - intros (l & v & d & Hin & Hl & Hp & Hd). exists (l, v). split; [done|].
    apply sets_found_iff. eauto.
Qed.

(** C2, as the code has it.  Each of [listed_today] and [listed_tomorrow]
    implies [found].  Both are true exactly when one hearing-date row parses to
    the evaluation date and another to the day after; so they exclude each
    other on every document whose hearing-date rows all carry one value. *)
Theorem listed_flags_imply_found
  (BeautifulSoup : str -> py node) (today tomorrow : date)
  (html_content case_id : str) (soup : node) :
  BeautifulSoup html_content = Ok soup ->
  add_one_day today = Ok tomorrow ->
  exists r,
    _parse_case_result BeautifulSoup today html_content case_id = Ok r /\
    (CaseResult.listed_today r = true -> CaseResult.found r = true) /\
    (CaseResult.listed_tomorrow r = true -> CaseResult.found r = true) /\
    (CaseResult.listed_today r = true /\ CaseResult.listed_tomorrow r = true <->
     (exists l1 v1, (l1, v1) ∈ key_value_rows soup /\
                    hearing_label l1 /\ parses_to v1 today) /\
     (exists l2 v2, (l2, v2) ∈ key_value_rows soup /\
                    hearing_label l2 /\ parses_to v2 tomorrow)) /\
    ((forall l1 v1 l2 v2,
        (l1, v1) ∈ key_value_rows soup -> hearing_label l1 ->
        (l2, v2) ∈ key_value_rows soup -> hearing_label l2 ->
        v1 = v2) ->
     ~ (CaseResult.listed_today r = true /\ CaseResult.listed_tomorrow r = true)).
Proof.
  intros Hsoup Htom. pose proof (add_one_day_neq _ _ Htom) as Hne.
  eexists. split; [by apply parse_case_result_spec|].
  set (ps := key_value_rows soup).
  rewrite run_rows_found, run_rows_listed_today, run_rows_listed_tomorrow. simpl.
  assert (Htoday : existsb (sets_today today) ps = true <->
                   exists l v, (l, v) ∈ ps /\ hearing_label l /\ parses_to v today).
  { rewrite existsb_elem_of. split.
    - intros ([l v] & Hin & Hs). apply sets_today_iff in Hs. exists l, v. tauto.
    - intros (l & v & Hin & Hl & Hp). exists (l, v). by rewrite sets_today_iff. }
  assert (Htomorrow : existsb (sets_tomorrow today tomorrow) ps = true <->
                      exists l v, (l, v) ∈ ps /\ hearing_label l /\ parses_to v tomorrow).
  { rewrite existsb_elem_of. split.
    - intros ([l v] & Hin & Hs). apply sets_tomorrow_iff in Hs; [|done]. exists l, v. tauto.
    - intros (l & v & Hin & Hl & Hp). exists (l, v). by rewrite sets_tomorrow_iff. }
  assert (Hfound : forall p, sets_today today p = true \/ sets_tomorrow today tomorrow p = true ->
                             sets_found today tomorrow p = true).
  { intros p. unfold sets_today, sets_tomorrow, sets_found.
    destruct (is_hearing_label p.1), (parses_tob p.2 today), (parses_tob p.2 tomorrow);
      simpl; tauto. }
  refine (conj _ (conj _ (conj _ _))).
  - rewrite !existsb_elem_of. intros (p & Hin & Hs). exists p. auto.
  - rewrite !existsb_elem_of. intros (p & Hin & Hs). exists p. auto.
  - tauto.
  - intros Hsame [H1 H2]. apply Htoday in H1 as (l1 & v1 & Hin1 & Hl1 & Hp1).
    apply Htomorrow in H2 as (l2 & v2 & Hin2 & Hl2 & Hp2).
    pose proof (Hsame _ _ _ _ Hin1 Hl1 Hin2 Hl2) as ->.
    unfold parses_to in *. congruence.
Qed.

(** C8. Let a hearing-date row carry a value that [strptime] rejects.  The
    interpreter still returns a result; right after that row
    [next_hearing_date] is the row's value, and it is still so at the end
    unless a later hearing-date row overwrites it; the three flags [found],
    [listed_today] and [listed_tomorrow] are what they are on the document
    without that row, so they are all false unless another row sets them. *)
Theorem unparseable_hearing_date_keeps_raw_value
  (BeautifulSoup : str -> py node) (today tomorrow : date)
  (html_content case_id : str) (soup : node)
  (pre post : list (str * str)) (label value : str) (e : exn) :
  BeautifulSoup html_content = Ok soup ->
  add_one_day today = Ok tomorrow ->
  key_value_rows soup = pre ++ (label, value) :: post ->
  hearing_label label ->
  Strptime.strptime value = Raise e ->
  exists r,
    _parse_case_result BeautifulSoup today html_content case_id = Ok r /\
    CaseResult.next_hearing_date
      (run_rows today tomorrow (initial_result case_id) (pre ++ [(label, value)]))
      = Some value /\
    (Forall (fun p => ~ hearing_label p.1) post ->
     CaseResult.next_hearing_date r = Some value) /\
    CaseResult.found r =
      CaseResult.found (run_rows today tomorrow (initial_result case_id) (pre ++ post)) /\
    CaseResult.listed_today r =
      CaseResult.listed_today (run_rows today tomorrow (initial_result case_id) (pre ++ post)) /\
    CaseResult.listed_tomorrow r =
      CaseResult.listed_tomorrow (run_rows today tomorrow (initial_result case_id) (pre ++ post)) /\
    ((forall p, p ∈ pre ++ post -> sets_found today tomorrow p = false) ->
     CaseResult.found r = false /\ CaseResult.listed_today r = false /\
     CaseResult.listed_tomorrow r = false).
Proof.
  intros Hsoup Htom Hrows Hlabel Hparse.
  destruct (unparseable_sets_nothing today tomorrow label value e Hparse)
    as (Hf & Ht & Hm).
  eexists. split; [by apply parse_case_result_spec|]. rewrite Hrows.
  assert (Hhere : forall r0,
             CaseResult.next_hearing_date
               (run_rows today tomorrow r0 (pre ++ [(label, value)])) = Some value).
  { intros r0. rewrite run_rows_app. unfold run_rows at 1. simpl.
    rewrite apply_row_next_hearing_date.
    apply is_hearing_label_iff in Hlabel. by rewrite Hlabel. }
  split; [apply Hhere|]. split.
  { intros Hpost. rewrite (cons_middle (label, value)), app_assoc, run_rows_app.
    rewrite run_rows_next_hearing_date_frame by done. apply Hhere. }
  rewrite !run_rows_found, !run_rows_listed_today, !run_rows_listed_tomorrow.
  rewrite !existsb_app. simpl. rewrite Hf, Ht, Hm. simpl.
  refine (conj eq_refl (conj eq_refl (conj eq_refl _))).
  intros Hnone.
  assert (Hex : existsb (sets_found today tomorrow) pre
                || existsb (sets_found today tomorrow) post = false).
  { rewrite <- existsb_app. apply not_true_is_false. rewrite existsb_elem_of.
    intros (p & Hin & Hs). rewrite Hnone in Hs by done. discriminate. }
  apply orb_false_elim in Hex as [Hpre Hpost].
  assert (Hweak : forall ps, existsb (sets_found today tomorrow) ps = false ->
                    existsb (sets_today today) ps = false /\
                    existsb (sets_tomorrow today tomorrow) ps = false).
  { induction ps as [|p ps IH]; simpl; [done|].
    intros [Hp Hps]%orb_false_elim. destruct (IH Hps) as [-> ->].
    revert Hp. unfold sets_found, sets_today, sets_tomorrow.
    destruct (is_hearing_label p.1), (parses_tob p.2 today), (parses_tob p.2 tomorrow);
      simpl; try discriminate; done. }
  destruct (Hweak _ Hpre) as [-> ->], (Hweak _ Hpost) as [-> ->].
  by rewrite Hpre, Hpost.
Qed.

(** Rows none of which sets [found] set no flag at all. *)
Lemma quiet_rows (d t : date) (ps : list (str * str)) :
  (forall p, p ∈ ps -> sets_found d t p = false) ->
  existsb (sets_found d t) ps = false /\
  existsb (sets_today d) ps = false /\
  existsb (sets_tomorrow d t) ps = false.
Proof.
  induction ps as [|p ps IH]; intros Hall; [done|].
  simpl.
  assert (Hrest : forall q, q ∈ ps -> sets_found d t q = false)
    by (intros q Hq; apply Hall; by apply list_elem_of_further).
  destruct (IH Hrest) as (-> & -> & ->).
  pose proof (Hall p (list_elem_of_here _ _)) as Hp. rewrite Hp.
  revert Hp. unfold sets_found, sets_today, sets_tomorrow.
  destruct (is_hearing_label p.1), (parses_tob p.2 d), (parses_tob p.2 t);
    simpl; try discriminate; done.
Qed.

(** C9, as the code has it.  The evaluation date is read from the clock inside
    [_parse_case_result] and reaches the three flags and nothing else: two
    calls on the same text and case id agree on every other key whatever the
    clock shows, and they agree on the whole result when no hearing-date row
    parses to either evaluation date or to the day after either.  The
    cause-list interpreter reads no clock; the time of the fetch is attached
    by [fetch_cause_list], and a fetch at another time gives the same
    dictionary with [fetched_at] replaced and nothing else changed. *)
Theorem clock_reaches_only_the_flags
  (BeautifulSoup : str -> py node) (d1 t1 d2 t2 : date)
  (html_content case_id : str) (soup : node) :
  BeautifulSoup html_content = Ok soup ->
  add_one_day d1 = Ok t1 ->
  add_one_day d2 = Ok t2 ->
  (exists r1 r2,
     _parse_case_result BeautifulSoup d1 html_content case_id = Ok r1 /\
     _parse_case_result BeautifulSoup d2 html_content case_id = Ok r2 /\
     untimed r1 = untimed r2 /\
     ((forall label value d,
         (label, value) ∈ key_value_rows soup -> hearing_label label ->
         parses_to value d -> d <> d1 /\ d <> t1 /\ d <> d2 /\ d <> t2) ->
      r1 = r2)) /\
  (forall now1 now2 http state_code district_code court_complex_code court_code date,
     fetch_cause_list BeautifulSoup now2 http state_code district_code
       court_complex_code court_code date
     = with_fetched_at now2
         (fetch_cause_list BeautifulSoup now1 http state_code district_code
            court_complex_code court_code date)).
Proof.
  intros Hsoup H1 H2. split.
  - do 2 eexists.
    split; [by apply parse_case_result_spec|].
    split; [by apply parse_case_result_spec|].
    split; [by apply run_rows_untimed|].
    intros Hmiss.
    assert (Hquiet : forall d t p, (d = d1 /\ t = t1) \/ (d = d2 /\ t = t2) ->
                       p ∈ key_value_rows soup -> sets_found d t p = false).
    { intros d t [l v] Hdt Hin. apply not_true_is_false.
      intros (Hl & d' & Hp & Hd')%sets_found_iff. simpl in *.
      destruct (Hmiss l v d' Hin Hl Hp) as (? & ? & ? & ?).
      destruct Hdt as [[-> ->]|[-> ->]], Hd'; congruence. }
    assert (Hflags : forall d t, (d = d1 /\ t = t1) \/ (d = d2 /\ t = t2) ->
                       existsb (sets_found d t) (key_value_rows soup) = false /\
                       existsb (sets_today d) (key_value_rows soup) = false /\
                       existsb (sets_tomorrow d t) (key_value_rows soup) = false).
    { intros d t Hdt. apply quiet_rows. intros p Hp. by apply (Hquiet d t p). }
    destruct (Hflags d1 t1) as (Hf1 & Ht1 & Hm1); [by left|].
    destruct (Hflags d2 t2) as (Hf2 & Ht2 & Hm2); [by right|].
    apply case_result_eq.
    + by apply run_rows_untimed.
    + by rewrite !run_rows_found, Hf1, Hf2.
    + by rewrite !run_rows_listed_today, Ht1, Ht2.
    + by rewrite !run_rows_listed_tomorrow, Hm1, Hm2.
  - intros now1 now2 http sc dc cc court dt.
    unfold fetch_cause_list, try_except, with_fetched_at.
    destruct http as [response|err]; simpl; [|reflexivity].
    by destruct (_parse_cause_list _ _) as [cl|err].
Qed.

(* ===================================================================== *)
(** * The cause-list interpreter *)
(* ===================================================================== *)

(** C6. On markup the parser accepts the interpreter never raises.  Its
    entries are read off the rows of the first table after the first row, one
    entry for each row with at least four cells and none for the others, in
    row order: the trimmed texts of cells 0 to 3, and of cell 4 when there is
    one, else the empty string.  [total_cases] is the number of entries, and a
    document without a table gives no entry and [total_cases = 0].  (On markup
    the parser rejects, the parser's exception comes out of the interpreter.) *)
Theorem parse_cause_list_entries (BeautifulSoup : str -> py node) (html_content : str) :
  match BeautifulSoup html_content with
  | Ok soup =>
      exists cases,
        _parse_cause_list BeautifulSoup html_content =
          Ok (CauseList.mk (Some (length cases)) cases None None) /\
        cases =
          (fun row =>
             let cells := find_all "td" row in
             CauseListEntry.mk (cell_text cells 0) (cell_text cells 1) (cell_text cells 2)
               (cell_text cells 3)
               (match cells !! 4%nat with
                | Some c4 => stripped_text c4
                | None => []
                end))
          <$> List.filter (fun row => (4 <=? length (find_all "td" row))%nat)
                (match find "table" soup with
                 | Some table => drop 1 (find_all "tr" table)
                 | None => []
                 end) /\
        (find "table" soup = None -> cases = [])
  | Raise e => _parse_cause_list BeautifulSoup html_content = Raise e
  end.
Proof.
  destruct (BeautifulSoup html_content) as [soup|e] eqn:Hsoup;
    [|by apply parse_cause_list_rejected].
  eexists. split; [by apply parse_cause_list_spec|]. split; [reflexivity|].
  intros Hnone. unfold data_rows. by rewrite Hnone.
Qed.

(** C10. Every entry of a cause list comes from a row that passed the guard
    [len(cells) >= 4]: such a row has a cell 3, the test [len(cells) > 3] of
    the advocate expression holds for it, and the entry's advocate is the
    trimmed text of that cell.  The purpose is the trimmed text of cell 4, or
    the empty default exactly when the row has four cells and no more. *)
Theorem advocate_default_unreachable (BeautifulSoup : str -> py node)
  (html_content : str) :
  match BeautifulSoup html_content with
  | Ok soup =>
      exists r,
        _parse_cause_list BeautifulSoup html_content = Ok r /\
        Forall2
          (fun entry row =>
             exists c0 c1 c2 c3 rest,
               find_all "td" row = c0 :: c1 :: c2 :: c3 :: rest /\
               (3 <? length (find_all "td" row))%nat = true /\
               build_case (find_all "td" row) = Ok entry /\
               CauseListEntry.advocate entry = stripped_text c3 /\
               CauseListEntry.purpose entry =
                 match rest with
                 | [] => []
                 | c4 :: _ => stripped_text c4
                 end /\
               ((4 <? length (find_all "td" row))%nat = false <-> rest = []))
          (CauseList.cases r)
          (List.filter has_four_cells (data_rows soup))
  | Raise e => _parse_cause_list BeautifulSoup html_content = Raise e
  end.
Proof.
  destruct (BeautifulSoup html_content) as [soup|e] eqn:Hsoup;
    [|by apply parse_cause_list_rejected].
  eexists. split; [by apply parse_cause_list_spec|]. simpl.
  apply Forall2_fmap_l, Forall_Forall2_diag, Forall_forall.
  intros row Hrow. apply list_elem_of_In, filter_In in Hrow as [_ Hfour].
  unfold has_four_cells in Hfour. apply Nat.leb_le in Hfour.
  destruct (find_all "td" row) as [|c0 [|c1 [|c2 [|c3 rest]]]] eqn:Hcells;
    simpl in Hfour; try lia.
  exists c0, c1, c2, c3, rest. simpl. rewrite !Hcells.
  destruct rest as [|c4 rest]; simpl; repeat split; intros; auto; try discriminate.
Qed.

(* ===================================================================== *)
(** * The location fetchers *)
(* ===================================================================== *)

(** C7. The option loop returns one entry for each valid option below the
    tag it runs on (trimmed value neither empty nor "0"), no entry for any
    other option, in document order, each with the trimmed value as code and
    the trimmed text as name; so it returns as many entries as there are valid
    options.  Trimming removes every blank of Unicode from both ends.
    [fetch_districts], [fetch_court_complexes] and [fetch_courts] run the loop
    on the whole response document. *)
Theorem option_extraction_valid_in_order (BeautifulSoup : str -> py node) :
  (forall scope : node,
     collect_options scope =
       (fun opt => LocationEntry.mk (PyStr.strip (get opt "value")) (PyStr.strip (text opt)))
       <$> List.filter valid_option (find_all "option" scope) /\
     length (collect_options scope) =
       length (List.filter valid_option (find_all "option" scope)) /\
     Forall (fun entry => LocationEntry.code entry <> [] /\
                          LocationEntry.code entry <> lit "0")
       (collect_options scope)) /\
  (forall (response : Response.t) (soup : node),
     BeautifulSoup (Response.text response) = Ok soup ->
     fetch_districts BeautifulSoup (Ok response) = collect_options soup /\
     fetch_court_complexes BeautifulSoup (Ok response) = collect_options soup /\
     fetch_courts BeautifulSoup (Ok response) = collect_options soup).
Proof.
  split.
  - intros scope. rewrite collect_options_spec. unfold valid_entries.
    split; [reflexivity|]. split; [by rewrite length_fmap|].
    apply Forall_fmap, Forall_forall. intros opt Hopt.
    apply list_elem_of_In, filter_In in Hopt as [_ Hvalid].
    by apply valid_option_code.
  - intros response soup Hsoup.
    unfold fetch_districts, fetch_court_complexes, fetch_courts, try_except. simpl.
    by rewrite Hsoup.
Qed.

(** [fetch_states] answers with the fallback or with the entries of the
    state select. *)
Lemma fetch_states_fallback_core (BeautifulSoup : str -> py node) (http : py Response.t) :
  let extracted :=
    match http with
    | Ok response =>
        match BeautifulSoup (Response.text response) with
        | Ok soup => state_entries soup
        | Raise _ => []
        end
    | Raise _ => []
    end in
  (extracted = [] /\ fetch_states BeautifulSoup http = _get_default_states) \/
  (extracted <> [] /\ fetch_states BeautifulSoup http = extracted).
Proof.
  unfold fetch_states, try_except, state_entries.
  destruct http as [response|e]; simpl; [|by left].
  destruct (BeautifulSoup (Response.text response)) as [soup|e]; simpl; [|by left].
  destruct (state_select soup) as [sel|]; [|by left].
  rewrite collect_options_spec.
  destruct (valid_entries sel) as [|entry entries]; [by left|by right].
Qed.

(** C5, as the code has it.  The fallback has ten entries with the codes "1"
    to "10".  [fetch_states] reads the options of the state select only (the
    first select whose id is state_code or, without one, the first whose name
    is): when the call raised, or the parser rejected the markup, or there is
    no such select, or it holds no valid option, the result is the fallback;
    otherwise it is the entries of that select and nothing else. *)
Theorem fetch_states_fallback_or_select (BeautifulSoup : str -> py node)
  (http : py Response.t) :
  LocationEntry.code <$> _get_default_states
    = [lit "1"; lit "2"; lit "3"; lit "4"; lit "5"; lit "6"; lit "7"; lit "8";
       lit "9"; lit "10"] /\
  let extracted :=
    match http with
    | Ok response =>
        match BeautifulSoup (Response.text response) with
        | Ok soup => state_entries soup
        | Raise _ => []
        end
    | Raise _ => []
    end in
  (extracted = [] /\ fetch_states BeautifulSoup http = _get_default_states) \/
  (extracted <> [] /\ fetch_states BeautifulSoup http = extracted).
Proof. split; [reflexivity | apply fetch_states_fallback_core]. Qed.

(* ===================================================================== *)
(** * The try/except boundary *)
(* ===================================================================== *)

(** C4, as the code has it.  When the awaited call raises, [fetch_districts],
    [fetch_court_complexes] and [fetch_courts] return the empty list,
    [fetch_states] returns the fallback, both searches and the download return
    [None] (the download touching no file), and [fetch_cause_list] returns
    [{"error": message, "cases": []}].  A response that came back is
    interpreted whatever its status code. *)
Theorem transport_exception_gives_no_data (BeautifulSoup : str -> py node) (e : exn)
  (today : date) (now_iso os_sep : str) (os_ok : os_call -> bool)
  (cnr case_type case_number case_year : str)
  (state_code district_code court_complex_code date : str)
  (court_code : option str) :
  (fetch_states BeautifulSoup (Raise e) = _get_default_states /\
   fetch_districts BeautifulSoup (Raise e) = [] /\
   fetch_court_complexes BeautifulSoup (Raise e) = [] /\
   fetch_courts BeautifulSoup (Raise e) = [] /\
   search_case_by_cnr BeautifulSoup today (Raise e) cnr = None /\
   search_case_by_details BeautifulSoup today (Raise e) case_type case_number case_year
     = None /\
   fetch_cause_list BeautifulSoup now_iso (Raise e) state_code district_code
     court_complex_code court_code date
     = CauseList.mk None [] None (Some (exn_message e)) /\
   download_cause_list_pdf os_sep os_ok (Raise e) state_code district_code
     court_complex_code date
     = (None, [])) /\
  (forall (response : Response.t) (status : Z),
     fetch_states BeautifulSoup (Ok (with_status response status))
       = fetch_states BeautifulSoup (Ok response) /\
     fetch_districts BeautifulSoup (Ok (with_status response status))
       = fetch_districts BeautifulSoup (Ok response) /\
     fetch_court_complexes BeautifulSoup (Ok (with_status response status))
       = fetch_court_complexes BeautifulSoup (Ok response) /\
     fetch_courts BeautifulSoup (Ok (with_status response status))
       = fetch_courts BeautifulSoup (Ok response) /\
     search_case_by_cnr BeautifulSoup today (Ok (with_status response status)) cnr
       = search_case_by_cnr BeautifulSoup today (Ok response) cnr /\
     search_case_by_details BeautifulSoup today (Ok (with_status response status))
         case_type case_number case_year
       = search_case_by_details BeautifulSoup today (Ok response)
           case_type case_number case_year /\
     fetch_cause_list BeautifulSoup now_iso (Ok (with_status response status))
         state_code district_code court_complex_code court_code date
       = fetch_cause_list BeautifulSoup now_iso (Ok response)
           state_code district_code court_complex_code court_code date).
Proof.
  split; [by repeat split|].
  intros response status. by repeat split.
Qed.

(* ===================================================================== *)
(** * The document download *)
(* ===================================================================== *)

(** C3, as the code has it.  [download_cause_list_pdf] returns a path, not
    the payload: the path [downloads/cause_list_<state>_<district>_<complex>_
    <date without hyphens>.pdf], returned exactly when the call came back with
    status 200 and the content type [application/pdf] and all four
    file-system calls went through (creating the directory, opening the file,
    writing, closing).  It has then written the response content, unchanged,
    to that path.  In every other case it returns [None]: it never reports a
    file it has not written and closed; but the file at the path has been
    created or emptied as soon as it was opened, also when the write or the
    close then fails. *)
Theorem download_returns_path_of_written_file (os_sep : str) (os_ok : os_call -> bool)
  (http : py Response.t) (state_code district_code court_complex_code date : str) :
  let path := pdf_path os_sep state_code district_code court_complex_code date in
  let out := download_cause_list_pdf os_sep os_ok http state_code district_code
               court_complex_code date in
  (forall p, out.1 = Some p <->
     p = path /\
     exists response,
       http = Ok response /\
       Response.status_code response = 200 /\
       Response.content_type response = Some (lit "application/pdf") /\
       os_ok (Makedirs "downloads") = true /\
       os_ok (OpenWrite path) = true /\
       os_ok (Write path (Response.content response)) = true /\
       os_ok (Close path) = true) /\
  (forall p, out.1 = Some p ->
     exists response,
       http = Ok response /\
       out.2 = [Makedirs "downloads"; OpenWrite p;
                Write p (Response.content response); Close p]) /\
  (out.1 = None ->
     ~ (exists data, Write path data ∈ out.2 /\ Close path ∈ out.2)) /\
  (OpenWrite path ∈ out.2 <->
     exists response,
       http = Ok response /\
       Response.status_code response = 200 /\
       Response.content_type response = Some (lit "application/pdf") /\
       os_ok (Makedirs "downloads") = true /\
       os_ok (OpenWrite path) = true).
Proof.
  intros path out. subst out. unfold download_cause_list_pdf. fold path.
  destruct http as [response|e].
  2:{ simpl. refine (conj _ (conj _ (conj _ _))).
      - intros p. split; [discriminate|]. intros [_ (r & Hr & _)]. discriminate.
      - discriminate.
      - intros _ (data & Hin & _). by apply elem_of_nil in Hin.
      - split; [intros Hin; by apply elem_of_nil in Hin|].
        intros (r & Hr & _). discriminate. }
  assert (Hpdf : is_pdf_response response = true <->
                 Response.status_code response = 200 /\
                 Response.content_type response = Some (lit "application/pdf")).
  { unfold is_pdf_response. rewrite andb_true_iff, Z.eqb_eq.
    destruct (Response.content_type response) as [ct|].
    - rewrite eqb_eq. split; intros [? Hct]; split; congruence.
    - split; intros [? Hct]; discriminate. }
  destruct (is_pdf_response response) eqn:Hp.
  2:{ assert (Hno : ~ (Response.status_code response = 200 /\
                        Response.content_type response = Some (lit "application/pdf")))
        by (intros Hc; apply Hpdf in Hc; discriminate).
      simpl. refine (conj _ (conj _ (conj _ _))).
      - intros p. split; [discriminate|].
        intros [_ (r & [= <-] & Hs & Hc & _)]. tauto.
      - discriminate.
      - intros _ (data & Hin & _). by apply elem_of_nil in Hin.
      - split; [intros Hin; by apply elem_of_nil in Hin|].
        intros (r & [= <-] & Hs & Hc & _). tauto. }
  destruct (proj1 Hpdf eq_refl) as [Hstatus Hct].
  destruct (os_ok (Makedirs "downloads")) eqn:Hmk.
  2:{ simpl. refine (conj _ (conj _ (conj _ _))).
      - intros p. split; [discriminate|].
        intros [_ (r & [= <-] & _ & _ & Hm & _)]. congruence.
      - discriminate.
      - intros _ (data & Hin & _). by apply elem_of_nil in Hin.
      - split; [intros Hin; by apply elem_of_nil in Hin|].
        intros (r & [= <-] & _ & _ & Hm & _). congruence. }
  destruct (os_ok (OpenWrite path)) eqn:Hop.
  2:{ simpl. refine (conj _ (conj _ (conj _ _))).
      - intros p. split; [discriminate|].
        intros [_ (r & [= <-] & _ & _ & _ & Ho & _)]. congruence.
      - discriminate.
      - intros _ (data & Hin & _).
        apply list_elem_of_In in Hin. simpl in Hin. destruct Hin as [Hin|[]]. discriminate.
      - split.
        + intros Hin. apply list_elem_of_In in Hin. simpl in Hin.
          destruct Hin as [Hin|[]]. discriminate.
        + intros (r & [= <-] & _ & _ & _ & Ho). congruence. }
  assert (Hopened : exists r, Ok response = Ok r /\
             Response.status_code r = 200 /\
             Response.content_type r = Some (lit "application/pdf") /\
             true = true /\ true = true)
    by (by exists response).
  destruct (os_ok (Write path (Response.content response))) eqn:Hwr.
  2:{ refine (conj _ (conj _ (conj _ _))).
      - intros p. split; [discriminate|].
        intros [_ (r & [= <-] & _ & _ & _ & _ & Hw & _)]. congruence.
      - discriminate.
      - intros _ (data & Hin & _). simpl in Hin.
        apply list_elem_of_In in Hin.
        destruct (os_ok (Close path)); simpl in Hin;
          repeat (destruct Hin as [Hin|Hin]; [discriminate|]); done.
      - split; [done|]. intros _. simpl.
        apply list_elem_of_further, list_elem_of_here. }
  destruct (os_ok (Close path)) eqn:Hcl.
  2:{ simpl. refine (conj _ (conj _ (conj _ _))).
      - intros p. split; [discriminate|].
        intros [_ (r & [= <-] & _ & _ & _ & _ & _ & Hc)]. congruence.
      - discriminate.
      - intros _ (data & _ & Hin).
        apply list_elem_of_In in Hin. simpl in Hin.
        repeat (destruct Hin as [Hin|Hin]; [discriminate|]). done.
      - split; [done|]. intros _. apply list_elem_of_further, list_elem_of_here. }
  simpl. refine (conj _ (conj _ (conj _ _))).
  - intros p. split.
    + intros [= <-]. split; [done|]. exists response. by repeat split.
    + by intros [-> _].
  - intros p [= <-]. by exists response.
  - discriminate.
  - split; [done|]. intros _. apply list_elem_of_further, list_elem_of_here.
Qed.

(* ===================================================================== *)
(** * Trimming *)
(* ===================================================================== *)

Lemma lstrip_starts_unspaced (s : str) :
  PyStr.lstrip s = [] \/
  exists c t, PyStr.lstrip s = c :: t /\ PyStr.is_space c = false.
Proof.
  induction s as [|c s IH]; cbn [PyStr.lstrip]; [by left|].
  destruct (PyStr.is_space c) eqn:Hc; [exact IH|]. right. by exists c, s.
Qed.

Lemma rstrip_cons (c : N) (s : str) :
  PyStr.rstrip (c :: s) =
  match PyStr.rstrip s with
  | [] => if PyStr.is_space c then [] else [c]
  | a :: r => c :: a :: r
  end.
Proof. reflexivity. Qed.

Lemma rstrip_idempotent (s : str) : PyStr.rstrip (PyStr.rstrip s) = PyStr.rstrip s.
Proof.
  induction s as [|c s IH]; [reflexivity|].
  rewrite rstrip_cons. destruct (PyStr.rstrip s) as [|a r] eqn:Hr.
  - destruct (PyStr.is_space c) eqn:Hc; [reflexivity|].
    rewrite rstrip_cons. cbn [PyStr.rstrip]. by rewrite Hc.
  - rewrite rstrip_cons, IH. reflexivity.
Qed.

Lemma lstrip_rstrip_unspaced (c : N) (t : str) :
  PyStr.is_space c = false ->
  PyStr.lstrip (PyStr.rstrip (c :: t)) = PyStr.rstrip (c :: t).
Proof.
  intros Hc. rewrite rstrip_cons.
  destruct (PyStr.rstrip t); rewrite ?Hc; cbn [PyStr.lstrip]; by rewrite Hc.
Qed.

Lemma strip_idempotent (s : str) : PyStr.strip (PyStr.strip s) = PyStr.strip s.
Proof.
  unfold PyStr.strip.
  destruct (lstrip_starts_unspaced s) as [->|(c & t & -> & Hc)]; [reflexivity|].
  by rewrite lstrip_rstrip_unspaced, rstrip_idempotent.
Qed.

Lemma strip_trimmed (s : str) : trimmed (PyStr.strip s).
Proof. apply strip_idempotent. Qed.

(** A trimmed string neither starts nor ends with a blank. *)
Lemma rstrip_last_unspaced (s : str) (c : N) :
  last (PyStr.rstrip s) = Some c -> PyStr.is_space c = false.
Proof.
  induction s as [|a s IH]; [discriminate|].
  rewrite rstrip_cons. destruct (PyStr.rstrip s) as [|b r] eqn:Hr.
  - destruct (PyStr.is_space a) eqn:Ha; [discriminate|]. by intros [= <-].
  - intros Hlast. apply IH. exact Hlast.
Qed.

Lemma rstrip_head (s : str) (c : N) :
  head (PyStr.rstrip s) = Some c -> head s = Some c.
Proof.
  destruct s as [|a s]; [discriminate|]. rewrite rstrip_cons.
  destruct (PyStr.rstrip s); [destruct (PyStr.is_space a)|]; try discriminate; done.
Qed.

Lemma strip_ends_unspaced (s : str) :
  (forall c, head (PyStr.strip s) = Some c -> PyStr.is_space c = false) /\
  (forall c, last (PyStr.strip s) = Some c -> PyStr.is_space c = false).
Proof.
  unfold PyStr.strip. split; [|apply rstrip_last_unspaced].
  intros c Hc. apply rstrip_head in Hc.
  destruct (lstrip_starts_unspaced s) as [Heq|(a & t & Heq & Ha)]; rewrite Heq in Hc.
  - discriminate.
  - by injection Hc as <-.
Qed.

(* ===================================================================== *)
(** * The keys of a case result *)
(* ===================================================================== *)

Lemma last_value_none (P : str -> bool) (ps : list (str * str)) :
  last_value P ps = None <-> Forall (fun p => P p.1 = false) ps.
Proof.
  induction ps as [|p ps IH]; simpl.
  - split; [constructor | reflexivity].
  - rewrite Forall_cons. destruct (last_value P ps) as [w|].
    + split; [discriminate|]. intros [_ Hps]. by apply IH in Hps.
    + destruct (P p.1).
      * split; [discriminate|]. intros [Hp _]. discriminate.
      * split; [|reflexivity]. intros _. split; [reflexivity | by apply IH].
Qed.

Lemma last_value_some (P : str -> bool) (ps : list (str * str)) (v : str) :
  last_value P ps = Some v <->
  exists pre label post,
    ps = pre ++ (label, v) :: post /\ P label = true /\
    Forall (fun p => P p.1 = false) post.
Proof.
  split.
  - revert v. induction ps as [|[l w] ps IH]; intros v; simpl; [discriminate|].
    destruct (last_value P ps) as [u|] eqn:Hlast.
    + intros [= ->]. destruct (IH v eq_refl) as (pre & label & post & -> & Hl & Hpost).
      by exists ((l, w) :: pre), label, post.
    + destruct (P l) eqn:Hl; [|discriminate]. intros [= ->].
      exists [], l, ps. split; [reflexivity|]. split; [done|]. by apply last_value_none.
  - intros (pre & label & post & -> & Hl & Hpost).
    induction pre as [|q pre IH]; simpl.
    + apply last_value_none in Hpost. by rewrite Hpost, Hl.
    + by rewrite IH.
Qed.

Lemma apply_row_details (today tomorrow : date) (r : CaseResult.t) (label value : str) :
  CaseResult.details (apply_row today tomorrow r label value) =
  <[label := value]> (CaseResult.details r).
Proof. split_row. Qed.

Lemma apply_row_case_id (today tomorrow : date) (r : CaseResult.t) (label value : str) :
  CaseResult.case_id (apply_row today tomorrow r label value) = CaseResult.case_id r.
Proof. split_row. Qed.

Lemma apply_row_court_name (today tomorrow : date) (r : CaseResult.t) (label value : str) :
  CaseResult.court_name (apply_row today tomorrow r label value) =
  if is_court_label label then Some value else CaseResult.court_name r.
Proof. unfold is_court_label. split_row. Qed.

Lemma apply_row_serial_number (today tomorrow : date) (r : CaseResult.t)
  (label value : str) :
  CaseResult.serial_number (apply_row today tomorrow r label value) =
  if is_serial_label label then Some value else CaseResult.serial_number r.
Proof. unfold is_serial_label. split_row. Qed.

Lemma apply_row_case_status (today tomorrow : date) (r : CaseResult.t)
  (label value : str) :
  CaseResult.case_status (apply_row today tomorrow r label value) =
  if is_status_label label then Some value else CaseResult.case_status r.
Proof. unfold is_status_label. split_row. Qed.

(** A key that each matching row overwrites ends as the last matching value. *)
Lemma run_rows_overwritten (today tomorrow : date) (field : CaseResult.t -> option str)
  (P : str -> bool) (ps : list (str * str)) (r : CaseResult.t) :
  (forall r label value,
     field (apply_row today tomorrow r label value) =
     if P label then Some value else field r) ->
  field (run_rows today tomorrow r ps) =
  match last_value P ps with
  | Some v => Some v
  | None => field r
  end.
Proof.
  intros Hstep. revert r. induction ps as [|[l v] ps IH]; intros r; [reflexivity|].
  unfold run_rows in *. simpl. rewrite IH, Hstep.
  destruct (last_value P ps); [reflexivity|]. by destruct (P l).
Qed.

Lemma run_rows_details (today tomorrow : date) (ps : list (str * str))
  (r : CaseResult.t) (label : str) :
  CaseResult.details (run_rows today tomorrow r ps) !! label =
  match last_value (PyStr.eqb label) ps with
  | Some v => Some v
  | None => CaseResult.details r !! label
  end.
Proof.
  revert r. induction ps as [|[l v] ps IH]; intros r; [reflexivity|].
  unfold run_rows in *. simpl. rewrite IH, apply_row_details.
  destruct (last_value (PyStr.eqb label) ps); [reflexivity|].
  destruct (PyStr.eqb label l) eqn:Heq.
  - apply eqb_eq in Heq as ->. by rewrite lookup_insert_eq.
  - apply eqb_neq in Heq. by rewrite lookup_insert_ne.
Qed.

Lemma run_rows_case_id (today tomorrow : date) (ps : list (str * str))
  (r : CaseResult.t) :
  CaseResult.case_id (run_rows today tomorrow r ps) = CaseResult.case_id r.
Proof.
  revert r. induction ps as [|[l v] ps IH]; intros r; [reflexivity|].
  unfold run_rows in *. simpl. by rewrite IH, apply_row_case_id.
Qed.

Lemma eqb_false_Forall (label : str) (ps : list (str * str)) :
  Forall (fun p => PyStr.eqb label p.1 = false) ps <->
  Forall (fun p => p.1 <> label) ps.
Proof.
  apply Forall_proper; [|done]. intros p. rewrite eqb_neq. split; auto.
Qed.

(** X1. The [details] dictionary is last-write-wins: a label maps to the
    value of the last key/value row that carries it, and is absent exactly
    when no row carries it. *)
Theorem details_last_write_wins
  (BeautifulSoup : str -> py node) (today tomorrow : date)
  (html_content case_id : str) (soup : node) :
  BeautifulSoup html_content = Ok soup ->
  add_one_day today = Ok tomorrow ->
  exists r,
    _parse_case_result BeautifulSoup today html_content case_id = Ok r /\
    (forall label value,
       CaseResult.details r !! label = Some value <->
       exists pre post,
         key_value_rows soup = pre ++ (label, value) :: post /\
         Forall (fun p => p.1 <> label) post) /\
    (forall label,
       CaseResult.details r !! label = None <->
       Forall (fun p => p.1 <> label) (key_value_rows soup)).
Proof.
  intros Hsoup Htom. eexists. split; [by apply parse_case_result_spec|].
  set (ps := key_value_rows soup). split.
  - intros label value. rewrite run_rows_details. simpl. rewrite lookup_empty.
    assert (Hsome : last_value (PyStr.eqb label) ps = Some value <->
                    exists pre post, ps = pre ++ (label, value) :: post /\
                                     Forall (fun p => p.1 <> label) post).
    { rewrite last_value_some. split.
      - intros (pre & l & post & Hps & Hl & Hpost). apply eqb_eq in Hl as <-.
        exists pre, post. by rewrite <- eqb_false_Forall.
      - intros (pre & post & Hps & Hpost). exists pre, label, post.
        by rewrite eqb_refl, eqb_false_Forall. }
    rewrite <- Hsome. by destruct (last_value (PyStr.eqb label) ps).
  - intros label. rewrite run_rows_details. simpl. rewrite lookup_empty.
    rewrite <- eqb_false_Forall, <- last_value_none.
    by destruct (last_value (PyStr.eqb label) ps).
Qed.

(** The four optional keys of a parsed result as last matching values. *)
Lemma optional_keys_core
  (BeautifulSoup : str -> py node) (today tomorrow : date)
  (html_content case_id : str) (soup : node) :
  BeautifulSoup html_content = Ok soup ->
  add_one_day today = Ok tomorrow ->
  exists r,
    _parse_case_result BeautifulSoup today html_content case_id = Ok r /\
    CaseResult.court_name r = last_value is_court_label (key_value_rows soup) /\
    CaseResult.serial_number r = last_value is_serial_label (key_value_rows soup) /\
    CaseResult.case_status r = last_value is_status_label (key_value_rows soup) /\
    CaseResult.next_hearing_date r = last_value is_hearing_label (key_value_rows soup).
Proof.
  intros Hsoup Htom. eexists. split; [by apply parse_case_result_spec|].
  set (ps := key_value_rows soup).
  rewrite (run_rows_overwritten _ _ CaseResult.court_name is_court_label)
    by apply apply_row_court_name.
  rewrite (run_rows_overwritten _ _ CaseResult.serial_number is_serial_label)
    by apply apply_row_serial_number.
  rewrite (run_rows_overwritten _ _ CaseResult.case_status is_status_label)
    by apply apply_row_case_status.
  rewrite (run_rows_overwritten _ _ CaseResult.next_hearing_date is_hearing_label)
    by apply apply_row_next_hearing_date.
  simpl.
  split; [by destruct (last_value is_court_label ps)|].
  split; [by destruct (last_value is_serial_label ps)|].
  split; [by destruct (last_value is_status_label ps)|].
  by destruct (last_value is_hearing_label ps).
Qed.

(** X2. Each optional key ends as the value of the last key/value row whose
    label matches its rule, and stays unset when no label matches: "court" for
    [court_name], "serial" or "sr." for [serial_number], "status" for
    [case_status], the hearing-date labels for [next_hearing_date] (whether or
    not the value parses as a date). *)
Theorem optional_keys_take_last_matching_row
  (BeautifulSoup : str -> py node) (today tomorrow : date)
  (html_content case_id : str) (soup : node) :
  BeautifulSoup html_content = Ok soup ->
  add_one_day today = Ok tomorrow ->
  exists r,
    _parse_case_result BeautifulSoup today html_content case_id = Ok r /\
    CaseResult.court_name r = last_value is_court_label (key_value_rows soup) /\
    CaseResult.serial_number r = last_value is_serial_label (key_value_rows soup) /\
    CaseResult.case_status r = last_value is_status_label (key_value_rows soup) /\
    CaseResult.next_hearing_date r = last_value is_hearing_label (key_value_rows soup) /\
    (forall P value,
       last_value P (key_value_rows soup) = Some value <->
       exists pre label post,
         key_value_rows soup = pre ++ (label, value) :: post /\
         P label = true /\ Forall (fun p => P p.1 = false) post) /\
    (forall P,
       last_value P (key_value_rows soup) = None <->
       Forall (fun p => P p.1 = false) (key_value_rows soup)).
Proof.
  intros Hsoup Htom.
  destruct (optional_keys_core BeautifulSoup today tomorrow html_content case_id soup
              Hsoup Htom) as (r & Hr & Hc & Hs & Hst & Hn).
  exists r. do 5 (split; [done|]).
  split; [intros P value; apply last_value_some | intros P; apply last_value_none].
Qed.

(** A label that passes a test differs from every label that fails it. *)
Lemma last_match_is_last_of_its_label (P : str -> bool) (label : str)
  (post : list (str * str)) :
  P label = true ->
  Forall (fun p => P p.1 = false) post ->
  Forall (fun p => PyStr.eqb label p.1 = false) post.
Proof.
  intros Hl Hpost. eapply Forall_impl; [exact Hpost|].
  intros p Hp. apply eqb_neq. congruence.
Qed.

Lemma last_value_in_details (today tomorrow : date) (P : str -> bool)
  (ps : list (str * str)) (value : str) :
  last_value P ps = Some value ->
  exists label,
    P label = true /\
    CaseResult.details (run_rows today tomorrow (initial_result []) ps) !! label
      = Some value.
Proof.
  intros (pre & label & post & -> & Hl & Hpost)%last_value_some.
  exists label. split; [done|]. rewrite run_rows_details.
  assert (Hlast : last_value (PyStr.eqb label) (pre ++ (label, value) :: post) = Some value).
  { apply last_value_some. exists pre, label, post.
    split; [reflexivity|]. split; [apply eqb_refl|].
    by apply (last_match_is_last_of_its_label P). }
  by rewrite Hlast.
Qed.

Lemma run_rows_details_case_id (today tomorrow : date) (ps : list (str * str))
  (c1 c2 : str) :
  CaseResult.details (run_rows today tomorrow (initial_result c1) ps) =
  CaseResult.details (run_rows today tomorrow (initial_result c2) ps).
Proof.
  apply map_eq. intros k. by rewrite !run_rows_details.
Qed.

(** X3. Whatever an optional key holds is also in [details]: when
    [court_name], [serial_number], [case_status] or [next_hearing_date] is set,
    [details] maps some label that matches the key's rule to the same value. *)
Theorem optional_keys_agree_with_details
  (BeautifulSoup : str -> py node) (today tomorrow : date)
  (html_content case_id : str) (soup : node) :
  BeautifulSoup html_content = Ok soup ->
  add_one_day today = Ok tomorrow ->
  exists r,
    _parse_case_result BeautifulSoup today html_content case_id = Ok r /\
    (forall v, CaseResult.court_name r = Some v ->
       exists label, PyStr.contains "court" label = true /\
                     CaseResult.details r !! label = Some v) /\
    (forall v, CaseResult.serial_number r = Some v ->
       exists label, (PyStr.contains "serial" label = true \/
                      PyStr.contains "sr." label = true) /\
                     CaseResult.details r !! label = Some v) /\
    (forall v, CaseResult.case_status r = Some v ->
       exists label, PyStr.contains "status" label = true /\
                     CaseResult.details r !! label = Some v) /\
    (forall v, CaseResult.next_hearing_date r = Some v ->
       exists label, hearing_label label /\
                     CaseResult.details r !! label = Some v).
Proof.
  intros Hsoup Htom.
  destruct (optional_keys_core BeautifulSoup today tomorrow
              html_content case_id soup Hsoup Htom) as (r & Hr & Hc & Hs & Hst & Hn).
  exists r. split; [exact Hr|].
  assert (Hd : CaseResult.details r =
               CaseResult.details
                 (run_rows today tomorrow (initial_result []) (key_value_rows soup))).
  { rewrite (parse_case_result_spec _ _ _ _ _ _ Hsoup Htom) in Hr. injection Hr as <-.
    apply run_rows_details_case_id. }
  rewrite Hd, Hc, Hs, Hst, Hn.
  refine (conj _ (conj _ (conj _ _))); intros v Hv;
    destruct (last_value_in_details today tomorrow _ _ _ Hv) as (label & Hl & Hlook);
    exists label; (split; [|exact Hlook]).
  - exact Hl.
  - by apply orb_true_iff.
  - exact Hl.
  - by apply is_hearing_label_iff.
Qed.

(** The flags of a parsed result against the rows that set them. *)
Lemma listed_flags_imply_found_core
  (BeautifulSoup : str -> py node) (today tomorrow : date)
  (html_content case_id : str) (soup : node) :
  BeautifulSoup html_content = Ok soup ->
  add_one_day today = Ok tomorrow ->
  exists r,
    _parse_case_result BeautifulSoup today html_content case_id = Ok r /\
    (CaseResult.listed_today r = true \/ CaseResult.listed_tomorrow r = true ->
     CaseResult.found r = true) /\
    (CaseResult.found r = true ->
     exists p, p ∈ key_value_rows soup /\ sets_found today tomorrow p = true).
Proof.
  intros Hsoup Htom. eexists. split; [by apply parse_case_result_spec|].
  rewrite run_rows_found, run_rows_listed_today, run_rows_listed_tomorrow. simpl.
  split.
  - rewrite !existsb_elem_of. intros [(p & Hin & Hs)|(p & Hin & Hs)]; exists p;
      (split; [done|]); revert Hs; unfold sets_today, sets_tomorrow, sets_found;
      destruct (is_hearing_label p.1), (parses_tob p.2 today), (parses_tob p.2 tomorrow);
      simpl; auto.
  - by rewrite existsb_elem_of.
Qed.

(** X4. A listed case always carries a hearing date: when [found],
    [listed_today] or [listed_tomorrow] is true, [next_hearing_date] is set,
    to the value of a row with a hearing-date label. *)
Theorem found_implies_next_hearing_date
  (BeautifulSoup : str -> py node) (today tomorrow : date)
  (html_content case_id : str) (soup : node) :
  BeautifulSoup html_content = Ok soup ->
  add_one_day today = Ok tomorrow ->
  exists r,
    _parse_case_result BeautifulSoup today html_content case_id = Ok r /\
    (CaseResult.found r = true \/ CaseResult.listed_today r = true \/
     CaseResult.listed_tomorrow r = true ->
     exists label value,
       CaseResult.next_hearing_date r = Some value /\
       (label, value) ∈ key_value_rows soup /\
       hearing_label label).
Proof.
  intros Hsoup Htom.
  destruct (optional_keys_core BeautifulSoup today tomorrow
              html_content case_id soup Hsoup Htom) as (r & Hr & _ & _ & _ & Hn).
  destruct (listed_flags_imply_found_core BeautifulSoup today tomorrow
              html_content case_id soup Hsoup Htom) as (r' & Hr' & Hflags & Hfound).
  assert (r' = r) as -> by congruence.
  exists r. split; [exact Hr|]. intros Hany.
  assert (Hf : CaseResult.found r = true) by tauto.
  apply Hfound in Hf as (p & Hin & Hs).
  set (ps := key_value_rows soup) in *.
  destruct (last_value is_hearing_label ps) as [value|] eqn:Hlast.
  - pose proof Hlast as (pre & label & post & Hps & Hl & _)%last_value_some.
    exists label, value. split; [done|]. split; [|by apply is_hearing_label_iff].
    rewrite Hps. apply elem_of_app. right. apply list_elem_of_here.
  - apply last_value_none in Hlast. rewrite Forall_forall in Hlast.
    specialize (Hlast p Hin).
    unfold sets_found in Hs. rewrite Hlast in Hs. discriminate.
Qed.

(** X5. A document without key/value rows (no table row with two cells)
    gives the untouched initial result: the case id, [found] and both listed
    flags false, every optional key unset and [details] empty. *)
Theorem no_key_value_rows_gives_initial_result
  (BeautifulSoup : str -> py node) (today tomorrow : date)
  (html_content case_id : str) (soup : node) :
  BeautifulSoup html_content = Ok soup ->
  add_one_day today = Ok tomorrow ->
  (forall row, row ∈ find_all "tr" soup -> (length (find_all "td" row) < 2)%nat) ->
  _parse_case_result BeautifulSoup today html_content case_id =
  Ok (CaseResult.mk case_id false false false None None None None ∅).
Proof.
  intros Hsoup Htom Hrows. rewrite (parse_case_result_spec _ _ tomorrow _ _ soup) by done.
  assert (Hnone : key_value_rows soup = []).
  { unfold key_value_rows.
    induction (find_all "tr" soup) as [|row rows IH]; [reflexivity|].
    simpl. assert (Hrow : row_pair row = None).
    { unfold row_pair. specialize (Hrows row (list_elem_of_here _ _)).
      destruct (find_all "td" row) as [|c0 [|c1 rest]]; simpl in *; try reflexivity; lia. }
    rewrite Hrow. apply IH. intros r Hr. apply Hrows. by apply list_elem_of_further. }
  by rewrite Hnone.
Qed.

(* ===================================================================== *)
(** * The two searches *)
(* ===================================================================== *)

Lemma add_one_day_raises (today : date) :
  (exists e, add_one_day today = Raise e) <-> today = date_max.
Proof.
  unfold add_one_day. destruct (date_eqb today date_max) eqn:Hmax.
  - apply date_eqb_eq in Hmax. split; [done | by eexists].
  - split; [by intros [e He]|]. intros ->. by rewrite (proj2 (date_eqb_eq _ _)) in Hmax.
Qed.

(** The three ways [_parse_case_result] can end. *)
Lemma parse_case_result_outcome (BeautifulSoup : str -> py node) (today : date)
  (html_content case_id : str) :
  (exists e, BeautifulSoup html_content = Raise e /\
             _parse_case_result BeautifulSoup today html_content case_id = Raise e) \/
  (exists soup, BeautifulSoup html_content = Ok soup /\ today = date_max /\
     _parse_case_result BeautifulSoup today html_content case_id = Raise OverflowError) \/
  (exists soup, BeautifulSoup html_content = Ok soup /\ today <> date_max /\
     exists r, _parse_case_result BeautifulSoup today html_content case_id = Ok r /\
               CaseResult.case_id r = case_id).
Proof.
  destruct (BeautifulSoup html_content) as [soup|e] eqn:Hsoup.
  2:{ left. exists e. split; [done|]. by apply parse_case_result_rejected. }
  right. destruct (add_one_day today) as [tomorrow|e] eqn:Htom.
  - right. exists soup. split; [done|]. split.
    + intros Hmax. apply add_one_day_raises in Hmax as [e He]. congruence.
    + eexists. split; [by apply parse_case_result_spec|]. by rewrite run_rows_case_id.
  - left. exists soup. split; [done|]. split; [apply add_one_day_raises; eauto|].
    unfold _parse_case_result. rewrite Hsoup. simpl. rewrite Htom. simpl.
    unfold add_one_day in Htom. destruct (date_eqb today date_max); congruence.
Qed.

(** X6. A search returns [None] exactly when the awaited call raised, or the
    parser rejected the text of the response, or the clock shows the last day
    of the calendar.  In every other case, found or not, it returns a result
    tagged with its search type and key: "CNR" with the CNR as [cnr] and as
    case id; "DETAILS" with the three case details and the case id
    [type/number/year]. *)
Theorem search_returns_tagged_result (BeautifulSoup : str -> py node) (today : date)
  (http : py Response.t) (cnr case_type case_number case_year : str) :
  let fails : Prop :=
    (exists e, http = Raise e) \/
    (exists response e,
       http = Ok response /\ BeautifulSoup (Response.text response) = Raise e) \/
    today = date_max in
  (search_case_by_cnr BeautifulSoup today http cnr = None <-> fails) /\
  (forall sr, search_case_by_cnr BeautifulSoup today http cnr = Some sr ->
     SearchResult.search_type sr = lit "CNR" /\ SearchResult.cnr sr = Some cnr /\
     SearchResult.case_details sr = None /\
     CaseResult.case_id (SearchResult.result sr) = cnr) /\
  (search_case_by_details BeautifulSoup today http case_type case_number case_year = None
     <-> fails) /\
  (forall sr,
     search_case_by_details BeautifulSoup today http case_type case_number case_year
       = Some sr ->
     SearchResult.search_type sr = lit "DETAILS" /\ SearchResult.cnr sr = None /\
     SearchResult.case_details sr = Some (case_type, case_number, case_year) /\
     CaseResult.case_id (SearchResult.result sr)
       = case_type ++ lit "/" ++ case_number ++ lit "/" ++ case_year).
Proof.
  intros fails. subst fails.
  unfold search_case_by_cnr, search_case_by_details, try_except, mbind, py_bind.
  destruct http as [response|e]; cbv beta iota.
  2:{ repeat split; eauto; discriminate. }
  destruct (parse_case_result_outcome BeautifulSoup today (Response.text response) cnr)
    as [(e1 & Hs1 & ->)|[(s1 & Hs1 & Hmax1 & ->)|(s1 & Hs1 & Hmax1 & r1 & -> & Hid1)]];
  destruct (parse_case_result_outcome BeautifulSoup today (Response.text response)
              (case_type ++ lit "/" ++ case_number ++ lit "/" ++ case_year))
    as [(e2 & Hs2 & ->)|[(s2 & Hs2 & Hmax2 & ->)|(s2 & Hs2 & Hmax2 & r2 & -> & Hid2)]];
  cbv beta iota; try congruence.
  - repeat split; eauto 6; discriminate.
  - repeat split; eauto; discriminate.
  - refine (conj _ (conj _ (conj _ _))).
    + split; [discriminate|].
      intros [[e He]|[(r & e & [= <-] & He)|Hmax]]; congruence.
    + by intros sr [= <-].
    + split; [discriminate|].
      intros [[e He]|[(r & e & [= <-] & He)|Hmax]]; congruence.
    + by intros sr [= <-].
Qed.

(* ===================================================================== *)
(** * Dates written out and read back *)
(* ===================================================================== *)

Lemma digit_char_digit (n : Z) :
  0 <= n <= 9 ->
  Strptime.is_digit (digit_char n) = true /\ Strptime.digit (digit_char n) = n.
Proof.
  intros Hn.
  assert (Hk : exists k, (k <= 9)%nat /\ n = Z.of_nat k) by (exists (Z.to_nat n); lia).
  destruct Hk as (k & Hk & ->).
  do 10 (destruct k as [|k]; [by vm_compute|]). lia.
Qed.

Lemma group_Y_four_digits (y : Z) :
  0 <= y <= 9999 -> Strptime.group_Y (four_digits y) = [(y, [])].
Proof.
  intros Hy. unfold four_digits, Strptime.group_Y.
  destruct (digit_char_digit (y / 1000)) as [-> ->]; [Z.div_mod_to_equations; lia|].
  destruct (digit_char_digit (y / 100 mod 10)) as [-> ->]; [Z.div_mod_to_equations; lia|].
  destruct (digit_char_digit (y / 10 mod 10)) as [-> ->]; [Z.div_mod_to_equations; lia|].
  destruct (digit_char_digit (y mod 10)) as [-> ->]; [Z.div_mod_to_equations; lia|].
  simpl. do 2 f_equal. Z.div_mod_to_equations; lia.
Qed.

Lemma format_date_unfold (y m d : Z) :
  format_date (mkDate y m d) =
  digit_char (d / 10) :: digit_char (d mod 10) :: Strptime.chr "-"
    :: digit_char (m / 10) :: digit_char (m mod 10) :: Strptime.chr "-"
    :: four_digits y.
Proof. reflexivity. Qed.

Lemma bind_day {X : Type} (d : Z) (rest : str) (K : Z -> str -> list X) :
  1 <= d <= 31 ->
  ('(n, s1) ← Strptime.group_d
      (digit_char (d / 10) :: digit_char (d mod 10) :: Strptime.chr "-" :: rest);
   s2 ← Strptime.hyphen s1; K n s2) = K d rest.
Proof.
  intros Hd.
  assert (Hk : exists k, (k < 31)%nat /\ d = Z.of_nat (S k)) by (exists (Z.to_nat (d - 1)); lia).
  destruct Hk as (k & Hk & ->).
  do 31 (destruct k as [|k]; [vm_compute; fold (@app X); by rewrite ?app_nil_r|]). lia.
Qed.

Lemma bind_month {X : Type} (m : Z) (rest : str) (K : Z -> str -> list X) :
  1 <= m <= 12 ->
  ('(n, s1) ← Strptime.group_m
      (digit_char (m / 10) :: digit_char (m mod 10) :: Strptime.chr "-" :: rest);
   s2 ← Strptime.hyphen s1; K n s2) = K m rest.
Proof.
  intros Hm.
  assert (Hk : exists k, (k < 12)%nat /\ m = Z.of_nat (S k)) by (exists (Z.to_nat (m - 1)); lia).
  destruct Hk as (k & Hk & ->).
  do 12 (destruct k as [|k]; [vm_compute; fold (@app X); by rewrite ?app_nil_r|]). lia.
Qed.

Lemma matches_format_date (y m d : Z) :
  1 <= d <= 31 -> 1 <= m <= 12 -> 0 <= y <= 9999 ->
  Strptime.matches (format_date (mkDate y m d)) = [(d, m, y, [])].
Proof.
  intros Hd Hm Hy. rewrite format_date_unfold. unfold Strptime.matches.
  rewrite (bind_day d _ (fun n s2 =>
             '(m0, s3) ← Strptime.group_m s2; s4 ← Strptime.hyphen s3;
             '(y0, s5) ← Strptime.group_Y s4; [(n, m0, y0, s5)])) by done.
  rewrite (bind_month m _ (fun m0 s4 =>
             '(y0, s5) ← Strptime.group_Y s4; [(d, m0, y0, s5)])) by done.
  by rewrite group_Y_four_digits.
Qed.

Lemma strptime_format_date (d : date) :
  valid_date d = true -> Strptime.strptime (format_date d) = Ok d.
Proof.
  intros Hv. destruct d as [y m dd]. unfold Strptime.strptime.
  assert (Hb : 1 <= dd <= 31 /\ 1 <= m <= 12 /\ 1 <= y <= 9999).
  { revert Hv. unfold valid_date, days_in_month. simpl.
    rewrite !andb_true_iff, !Z.leb_le.
    destruct (m =? 2); [destruct (is_leap y)|destruct (_ || _)]; lia. }
  rewrite matches_format_date by lia. by rewrite Hv.
Qed.

Lemma days_in_month_bounds (y m : Z) : 28 <= days_in_month y m <= 31.
Proof.
  unfold days_in_month.
  destruct (m =? 2); [destruct (is_leap y)|destruct (_ || _)]; lia.
Qed.

Lemma next_day_valid (d : date) :
  valid_date d = true -> d <> date_max -> valid_date (next_day d) = true.
Proof.
  destruct d as [y m dd]. unfold valid_date, next_day. simpl.
  rewrite !andb_true_iff, !Z.leb_le. intros Hv Hmax.
  destruct (Z.ltb_spec dd (days_in_month y m)) as [Hlt|Hge]; simpl.
  - lia.
  - destruct (Z.ltb_spec m 12) as [Hm|Hm]; simpl.
    + pose proof (days_in_month_bounds y (m + 1)). lia.
    + pose proof (days_in_month_bounds (y + 1) 1).
      assert (m = 12) as -> by lia.
      assert (dd = 31) as -> by (change (days_in_month y 12) with 31 in *; lia).
      assert (y <> 9999) by (intros ->; by apply Hmax). lia.
Qed.

(** X7. Writing a valid date as two-digit day, two-digit month and
    four-digit year and parsing it back gives the same date.  So a row with a
    hearing-date label whose value is the evaluation date in that form makes
    the case [found] and [listed_today], and one whose value is the following
    day makes it [found] and [listed_tomorrow], whatever the other rows hold. *)
Theorem formatted_hearing_date_is_listed
  (BeautifulSoup : str -> py node) (today tomorrow : date)
  (html_content case_id label value : str) (soup : node) :
  BeautifulSoup html_content = Ok soup ->
  add_one_day today = Ok tomorrow ->
  valid_date today = true ->
  (label, value) ∈ key_value_rows soup ->
  hearing_label label ->
  (forall d, valid_date d = true -> Strptime.strptime (format_date d) = Ok d) /\
  exists r,
    _parse_case_result BeautifulSoup today html_content case_id = Ok r /\
    (value = format_date today ->
     CaseResult.found r = true /\ CaseResult.listed_today r = true) /\
    (value = format_date tomorrow ->
     CaseResult.found r = true /\ CaseResult.listed_tomorrow r = true).
Proof.
  intros Hsoup Htom Hvalid Hin Hlabel. split; [apply strptime_format_date|].
  assert (Hvalid' : valid_date tomorrow = true).
  { pose proof Htom as Htom'. unfold add_one_day in Htom'.
    destruct (date_eqb today date_max) eqn:Hmax; [discriminate|].
    injection Htom' as <-. apply next_day_valid; [done|].
    intros ->. by rewrite (proj2 (date_eqb_eq _ _)) in Hmax. }
  pose proof (add_one_day_neq _ _ Htom) as Hne.
  eexists. split; [by apply parse_case_result_spec|].
  rewrite run_rows_found, run_rows_listed_today, run_rows_listed_tomorrow. simpl.
  rewrite !existsb_elem_of. split; intros ->; split.
  - exists (label, format_date today). split; [exact Hin|].
    apply sets_found_iff. split; [done|]. exists today.
    split; [by apply strptime_format_date | by left].
  - exists (label, format_date today). split; [exact Hin|].
    apply sets_today_iff. split; [done|]. by apply strptime_format_date.
  - exists (label, format_date tomorrow). split; [exact Hin|].
    apply sets_found_iff. split; [done|]. exists tomorrow.
    split; [by apply strptime_format_date | by right].
  - exists (label, format_date tomorrow). split; [exact Hin|].
    apply sets_tomorrow_iff; [done|]. split; [done|]. by apply strptime_format_date.
Qed.

(* ===================================================================== *)
(** * The session *)
(* ===================================================================== *)

Lemma get_session_stores_client (created : nat) (self : Scraper.t) :
  Scraper.session (_get_session created self).2 = Some (_get_session created self).1.1.
Proof. unfold _get_session. by destruct (Scraper.session self) eqn:Hs. Qed.

Lemma get_session_reuses (created : nat) (self : Scraper.t) (client : Client.t) :
  Scraper.session self = Some client ->
  _get_session created self = (client, created, self).
Proof. intros Hs. unfold _get_session. by rewrite Hs. Qed.

Lemma get_sessions_reuse (n created : nat) (self : Scraper.t) (client : Client.t) :
  Scraper.session self = Some client ->
  get_sessions n created self = (replicate n client, created, self).
Proof.
  intros Hs. induction n as [|n IH]; simpl; [reflexivity|].
  by rewrite (get_session_reuses _ _ client), IH.
Qed.

(** X8. However often [_get_session] is called, it hands back one and the
    same client and leaves the object and the count of clients as the first
    call left them; on a fresh scraper exactly one client is ever created,
    and it carries the fixed headers and the 30 second timeout. *)
Theorem get_session_creates_one_client (n created : nat) (self : Scraper.t) :
  get_sessions (S n) created self =
    (replicate (S n) (_get_session created self).1.1,
     (_get_session created self).1.2,
     (_get_session created self).2) /\
  get_sessions (S n) created __init__ =
    (replicate (S n) (Client.mk created headers 30), S created,
     Scraper.mk (Some (Client.mk created headers 30))).
Proof.
  assert (Hgen : forall self,
             get_sessions (S n) created self =
             (replicate (S n) (_get_session created self).1.1,
              (_get_session created self).1.2, (_get_session created self).2)).
  { intros s. simpl.
    pose proof (get_session_stores_client created s) as Hstored.
    destruct (_get_session created s) as [[client created'] self'] eqn:Hcall.
    simpl in *. by rewrite (get_sessions_reuse _ _ _ client). }
  split; [apply Hgen|]. by rewrite Hgen.
Qed.

(* ===================================================================== *)
(** * The requests *)
(* ===================================================================== *)

(** An optional string as [if v:] sees it: absent when [None] or empty. *)
Lemma put_if_truthy_lookup (key : str) (v : option str)
  (data : gmap str str) (k : str) :
  put_if_truthy key v data !! k =
  match v with
  | Some (c :: s) => if decide (key = k) then Some (c :: s) else data !! k
  | _ => data !! k
  end.
Proof.
  unfold put_if_truthy. destruct v as [[|c s]|]; simpl; try reflexivity.
  apply lookup_insert.
Qed.

(** X9. An optional code goes into the request exactly when it is given and
    not empty: an empty string is left out like [None].  The CNR search always
    sends [cnr]; the cause-list fetch and the document download send one and
    the same payload, in which [court_code] is the only optional field. *)
Theorem optional_codes_sent_when_nonempty
  (cnr state_code district_code court_complex_code date : str)
  (opt_state opt_district court_code : option str) :
  let sent (v : option str) : option str :=
    match v with
    | Some (c :: s) => Some (c :: s)
    | _ => None
    end in
  (forall k,
     Request.data (cnr_request cnr opt_state opt_district) !! k =
     if decide (k = lit "dist_code") then sent opt_district
     else if decide (k = lit "state_code") then sent opt_state
     else if decide (k = lit "cnr") then Some cnr
     else None) /\
  (forall k,
     Request.data (cause_list_request state_code district_code court_complex_code
                     court_code date) !! k =
     if decide (k = lit "court_code") then sent court_code
     else if decide (k = lit "date") then Some date
     else if decide (k = lit "court_complex_code") then Some court_complex_code
     else if decide (k = lit "dist_code") then Some district_code
     else if decide (k = lit "state_code") then Some state_code
     else None) /\
  Request.data (pdf_request state_code district_code court_complex_code court_code date)
  = Request.data (cause_list_request state_code district_code court_complex_code
                    court_code date) /\
  cause_list_request state_code district_code court_complex_code (Some []) date
  = cause_list_request state_code district_code court_complex_code None date.
Proof.
  intros sent. refine (conj _ (conj _ (conj eq_refl eq_refl))).
  - intros k. unfold cnr_request. simpl. rewrite !put_if_truthy_lookup.
    destruct opt_district as [[|c1 s1]|], opt_state as [[|c2 s2]|]; simpl;
      repeat case_decide; simplify_map_eq; first [done | congruence].
  - intros k. unfold cause_list_request, cause_list_data. simpl.
    rewrite put_if_truthy_lookup.
    destruct court_code as [[|c1 s1]|]; simpl;
      repeat case_decide; simplify_map_eq; first [done | congruence].
Qed.

(* ===================================================================== *)
(** * More on the cause list and the download *)
(* ===================================================================== *)

Lemma download_path (os_sep : str) (os_ok : os_call -> bool) (http : py Response.t)
  (state_code district_code court_complex_code date p : str) :
  (download_cause_list_pdf os_sep os_ok http state_code district_code
     court_complex_code date).1 = Some p ->
  p = pdf_path os_sep state_code district_code court_complex_code date.
Proof.
  unfold download_cause_list_pdf. destruct http as [response|e]; [|discriminate].
  destruct (is_pdf_response response); [|discriminate].
  destruct (os_ok (Makedirs _)); [|discriminate].
  destruct (os_ok (OpenWrite _)); [|discriminate].
  destruct (os_ok (Write _ _)); [|discriminate].
  destruct (os_ok (Close _)); [|discriminate].
  by intros [= <-].
Qed.

(** X10. The path of a downloaded file is fixed by the state, district and
    complex codes and the date with its hyphens dropped.  Two downloads on one
    platform that agree on these and both succeed return the same path,
    whatever the two responses held: the court code and the content play no
    part in the name. *)
Theorem download_path_ignores_content_and_hyphens
  (os_sep : str) (os_ok1 os_ok2 : os_call -> bool) (http1 http2 : py Response.t)
  (state_code district_code court_complex_code date1 date2 p1 p2 : str) :
  PyStr.remove_char (Strptime.chr "-") date1 = PyStr.remove_char (Strptime.chr "-") date2 ->
  (download_cause_list_pdf os_sep os_ok1 http1 state_code district_code
     court_complex_code date1).1 = Some p1 ->
  (download_cause_list_pdf os_sep os_ok2 http2 state_code district_code
     court_complex_code date2).1 = Some p2 ->
  p1 = p2.
Proof.
  intros Hdate H1%download_path H2%download_path. subst p1 p2.
  unfold pdf_path. by rewrite Hdate.
Qed.

(** X11. [fetch_cause_list] returns one of two shapes.  After an exception,
    of the awaited call or of the parser on the text of the response: the
    error message, no cases, and neither [total_cases] nor [metadata].
    Otherwise: no error, the cases of the interpreter, [total_cases] equal to
    their number, and the metadata echoing the five arguments with the time of
    the fetch. *)
Theorem fetch_cause_list_shapes (BeautifulSoup : str -> py node)
  (now_iso : str) (http : py Response.t)
  (state_code district_code court_complex_code date : str)
  (court_code : option str) :
  let cl := fetch_cause_list BeautifulSoup now_iso http state_code district_code
              court_complex_code court_code date in
  (exists e,
     (http = Raise e \/
      exists response,
        http = Ok response /\ BeautifulSoup (Response.text response) = Raise e) /\
     cl = CauseList.mk None [] None (Some (exn_message e))) \/
  (exists response soup parsed,
     http = Ok response /\
     BeautifulSoup (Response.text response) = Ok soup /\
     _parse_cause_list BeautifulSoup (Response.text response) = Ok parsed /\
     CauseList.error cl = None /\
     CauseList.cases cl = CauseList.cases parsed /\
     CauseList.total_cases cl = Some (length (CauseList.cases cl)) /\
     CauseList.metadata cl =
       Some (Metadata.mk state_code district_code court_complex_code court_code
               date now_iso)).
Proof.
  intros cl. subst cl. unfold fetch_cause_list, try_except, mbind, py_bind.
  destruct http as [response|e]; [|left; exists e; split; [by left | done]].
  cbv beta iota.
  destruct (BeautifulSoup (Response.text response)) as [soup|e] eqn:Hsoup.
  - right.
    rewrite (parse_cause_list_spec BeautifulSoup (Response.text response) soup Hsoup).
    cbv zeta beta iota.
    eexists response, soup, _. split; [reflexivity|]. split; [exact Hsoup|].
    split; [by apply parse_cause_list_spec|]. simpl. by rewrite length_fmap.
  - left. exists e. split; [right; by exists response|].
    by rewrite (parse_cause_list_rejected BeautifulSoup (Response.text response) e Hsoup).
Qed.

(** X14. The first row of the table is dropped whatever it holds: when every
    row of the first table has at least four cells, the cause list has one
    entry fewer than the table has rows, so a table without a header row loses
    its first hearing. *)
Theorem first_row_dropped_even_if_data (BeautifulSoup : str -> py node)
  (html_content : str) (soup table : node) :
  BeautifulSoup html_content = Ok soup ->
  find "table" soup = Some table ->
  (forall row, row ∈ find_all "tr" table -> (4 <= length (find_all "td" row))%nat) ->
  exists cl,
    _parse_cause_list BeautifulSoup html_content = Ok cl /\
    CauseList.total_cases cl = Some (length (find_all "tr" table) - 1)%nat /\
    CauseList.cases cl
      = (fun row => entry_of_cells (find_all "td" row)) <$> drop 1 (find_all "tr" table).
Proof.
  intros Hsoup Htable Hrows. eexists. split; [by apply parse_cause_list_spec|].
  unfold data_rows. rewrite Htable. simpl.
  assert (Hall : List.filter has_four_cells (drop 1 (find_all "tr" table))
                 = drop 1 (find_all "tr" table)).
  { assert (Hsub : forall row, row ∈ drop 1 (find_all "tr" table) ->
                               has_four_cells row = true).
    { intros row Hrow. apply Nat.leb_le, Hrows.
      apply list_elem_of_lookup in Hrow as [i Hi]. rewrite lookup_drop in Hi.
      by eapply list_elem_of_lookup_2. }
    induction (drop 1 (find_all "tr" table)) as [|row rows IH]; [reflexivity|].
    simpl. rewrite (Hsub row) by apply list_elem_of_here.
    f_equal. apply IH. intros r Hr. apply Hsub. by apply list_elem_of_further. }
  rewrite Hall. split; [|reflexivity].
  by rewrite length_fmap, length_drop.
Qed.

(* ===================================================================== *)
(** * More on the location entries *)
(* ===================================================================== *)

(** What every extracted entry satisfies. *)
Lemma valid_entries_clean (scope : node) :
  Forall (fun entry =>
            LocationEntry.code entry <> [] /\
            LocationEntry.code entry <> lit "0" /\
            trimmed (LocationEntry.code entry) /\
            trimmed (LocationEntry.name entry))
    (valid_entries scope).
Proof.
  unfold valid_entries. apply Forall_fmap, Forall_forall. intros opt Hopt.
  apply list_elem_of_In, filter_In in Hopt as [_ Hvalid].
  destruct (valid_option_code opt Hvalid) as [Hne H0].
  repeat split; try done; apply strip_trimmed.
Qed.

Lemma find_all_options_of (entries : list LocationEntry.t) :
  find_all "option" (options_of entries) =
  (fun e => Tag "option" {[ lit "value" := LocationEntry.code e ]}
              [NavigableString (LocationEntry.name e)]) <$> entries.
Proof.
  unfold options_of. cbn [find_all].
  induction entries as [|e entries IH]; [reflexivity|].
  rewrite fmap_cons. rewrite IH. reflexivity.
Qed.

Lemma option_tag_valid (code name : str) :
  code <> [] -> code <> lit "0" -> trimmed code ->
  valid_option (Tag "option" {[ lit "value" := code ]} [NavigableString name]) = true.
Proof.
  intros Hne H0 Hcode. unfold valid_option, get. rewrite lookup_singleton_eq.
  cbn [default from_option id]. rewrite Hcode. apply eqb_neq in Hne, H0. by rewrite Hne, H0.
Qed.

Lemma option_tag_entry (code name : str) :
  trimmed code -> trimmed name ->
  option_entry (Tag "option" {[ lit "value" := code ]} [NavigableString name])
  = LocationEntry.mk code name.
Proof.
  intros Hcode Hname. unfold option_entry, stripped_text, get.
  rewrite lookup_singleton_eq. cbn [default from_option id text]. rewrite app_nil_r.
  by rewrite Hcode, Hname.
Qed.

Lemma valid_entries_options_of (entries : list LocationEntry.t) :
  Forall (fun entry =>
            LocationEntry.code entry <> [] /\
            LocationEntry.code entry <> lit "0" /\
            trimmed (LocationEntry.code entry) /\
            trimmed (LocationEntry.name entry)) entries ->
  valid_entries (options_of entries) = entries.
Proof.
  intros Hclean. unfold valid_entries. rewrite find_all_options_of.
  induction Hclean as [|[code name] entries (Hne & H0 & Hcode & Hname) _ IH];
    [reflexivity|].
  rewrite fmap_cons. cbn [List.filter LocationEntry.code LocationEntry.name].
  cbn [LocationEntry.code LocationEntry.name] in *.
  rewrite option_tag_valid by done.
  rewrite fmap_cons, option_tag_entry by done. by rewrite IH.
Qed.

(** X12. Round trip: writing the extracted entries back as an option list
    (code as value, name as text) and extracting again gives the same
    entries; nothing is lost, reordered or trimmed twice. *)
Theorem option_round_trip (scope : node) :
  collect_options (options_of (collect_options scope)) = collect_options scope.
Proof.
  rewrite !collect_options_spec.
  apply valid_entries_options_of, valid_entries_clean.
Qed.

(** X13. Every entry that a location fetcher returns has a code that is not
    empty, not "0" and has no blank at either end, and a name without blanks
    at either end, where a blank is any character that [str.strip] removes;
    [fetch_states] never returns an empty list. *)
Theorem location_entries_are_clean (BeautifulSoup : str -> py node)
  (http : py Response.t) :
  let clean (entries : list LocationEntry.t) : Prop :=
    Forall (fun entry =>
              LocationEntry.code entry <> [] /\
              LocationEntry.code entry <> lit "0" /\
              trimmed (LocationEntry.code entry) /\
              trimmed (LocationEntry.name entry) /\
              (forall c, head (LocationEntry.code entry) = Some c \/
                         last (LocationEntry.code entry) = Some c \/
                         head (LocationEntry.name entry) = Some c \/
                         last (LocationEntry.name entry) = Some c ->
                         PyStr.is_space c = false)) entries in
  fetch_states BeautifulSoup http <> [] /\
  clean (fetch_states BeautifulSoup http) /\
  clean (fetch_districts BeautifulSoup http) /\
  clean (fetch_court_complexes BeautifulSoup http) /\
  clean (fetch_courts BeautifulSoup http).
Proof.
  intros clean.
  assert (Hclean : forall entries,
            Forall (fun entry =>
                      LocationEntry.code entry <> [] /\
                      LocationEntry.code entry <> lit "0" /\
                      trimmed (LocationEntry.code entry) /\
                      trimmed (LocationEntry.name entry)) entries ->
            clean entries).
  { intros entries Hall. eapply Forall_impl; [exact Hall|].
    intros entry (Hne & H0 & Hcode & Hname). do 4 (split; [done|]).
    destruct (strip_ends_unspaced (LocationEntry.code entry)) as [Hch Hcl].
    destruct (strip_ends_unspaced (LocationEntry.name entry)) as [Hnh Hnl].
    rewrite Hcode in Hch, Hcl. rewrite Hname in Hnh, Hnl.
    intros c [Hc|[Hc|[Hc|Hc]]]; auto. }
  assert (Hdefault : clean _get_default_states).
  { apply Hclean. unfold _get_default_states. repeat constructor; discriminate. }
  assert (Hother : forall http',
            clean (try_except
                     (response ← http';
                      soup ← BeautifulSoup (Response.text response);
                      Ok (collect_options soup))
                     (fun _ => []))).
  { intros [response|e]; simpl; [|constructor].
    destruct (BeautifulSoup (Response.text response)) as [soup|e]; simpl; [|constructor].
    rewrite collect_options_spec. apply Hclean, valid_entries_clean. }
  destruct (fetch_states_fallback_core BeautifulSoup http) as [[_ ->]|[Hne ->]].
  - split; [discriminate|]. split; [exact Hdefault|]. repeat split; apply Hother.
  - split; [exact Hne|]. split; [|repeat split; apply Hother].
    destruct http as [response|e]; [|done].
    destruct (BeautifulSoup (Response.text response)) as [soup|e]; [|done].
    unfold state_entries in *.
    destruct (state_select _); [apply Hclean, valid_entries_clean | done].
Qed.

(* ===================================================================== *)
(** * Normal forms of what is stored *)
(* ===================================================================== *)

(** Lower-casing ASCII text works character by character, and turns no
    character into a blank or a blank into another character. *)
Lemma ascii_lower_char_spec (c : N) :
  PyStr.is_space (PyStr.ascii_lower_char c) = PyStr.is_space c /\
  PyStr.ascii_lower_char (PyStr.ascii_lower_char c) = PyStr.ascii_lower_char c /\
  ((c <? 128)%N = true -> (PyStr.ascii_lower_char c <? 128)%N = true).
Proof.
  destruct ((65 <=? c) && (c <=? 90))%N eqn:Hupper.
  - apply andb_true_iff in Hupper as [Hlo%N.leb_le Hhi%N.leb_le].
    assert (Hk : exists k, (k <= 25)%nat /\ c = (65 + N.of_nat k)%N)
      by (exists (N.to_nat (c - 65)); lia).
    destruct Hk as (k & Hk & ->).
    do 26 (destruct k as [|k]; [by vm_compute|]). lia.
  - unfold PyStr.ascii_lower_char. by rewrite !Hupper.
Qed.

Lemma lower_ascii (t : str) :
  PyStr.is_ascii t = true ->
  PyStr.lower t = PyStr.ascii_lower_char <$> t /\
  PyStr.is_ascii (PyStr.ascii_lower_char <$> t) = true.
Proof.
  intros Ht. unfold PyStr.lower. rewrite Ht. split; [reflexivity|].
  unfold PyStr.is_ascii in *. induction t as [|c t IH]; [reflexivity|].
  simpl in Ht. apply andb_true_iff in Ht as [Hc Ht].
  rewrite fmap_cons. simpl. rewrite (proj2 (proj2 (ascii_lower_char_spec c)) Hc).
  by apply IH.
Qed.

Lemma lstrip_ascii_lower (s : str) :
  PyStr.lstrip (PyStr.ascii_lower_char <$> s) = PyStr.ascii_lower_char <$> PyStr.lstrip s.
Proof.
  induction s as [|c s IH]; [reflexivity|].
  rewrite fmap_cons. cbn [PyStr.lstrip].
  rewrite (proj1 (ascii_lower_char_spec c)). by destruct (PyStr.is_space c).
Qed.

Lemma rstrip_ascii_lower (s : str) :
  PyStr.rstrip (PyStr.ascii_lower_char <$> s) = PyStr.ascii_lower_char <$> PyStr.rstrip s.
Proof.
  induction s as [|c s IH]; [reflexivity|].
  rewrite fmap_cons, !rstrip_cons, IH, (proj1 (ascii_lower_char_spec c)).
  destruct (PyStr.rstrip s); [|reflexivity].
  by destruct (PyStr.is_space c).
Qed.

(** The lower-cased form of trimmed ASCII text is trimmed and lower-case. *)
Lemma lower_trimmed_ascii (t : str) :
  trimmed t -> PyStr.is_ascii t = true ->
  PyStr.lower (PyStr.lower t) = PyStr.lower t /\ trimmed (PyStr.lower t).
Proof.
  intros Ht Hascii. destruct (lower_ascii t Hascii) as [-> Hascii'].
  destruct (lower_ascii _ Hascii') as [-> _]. split.
  - rewrite <- list_fmap_compose. apply list_fmap_ext. intros i c _. simpl.
    apply ascii_lower_char_spec.
  - unfold trimmed, PyStr.strip. rewrite lstrip_ascii_lower, rstrip_ascii_lower.
    f_equal. exact Ht.
Qed.

Lemma key_value_rows_normalised (soup : node) (label value : str) :
  (label, value) ∈ key_value_rows soup ->
  trimmed value /\
  exists t, trimmed t /\ label = PyStr.lower t /\
            (PyStr.is_ascii t = true -> PyStr.lower label = label /\ trimmed label).
Proof.
  intros (row & c0 & c1 & rest & _ & _ & -> & ->)%key_value_rows_elem.
  split; [apply strip_trimmed|]. exists (stripped_text c0).
  split; [apply strip_trimmed|]. split; [reflexivity|].
  intros Hascii. apply lower_trimmed_ascii; [apply strip_trimmed | done].
Qed.

Lemma last_value_elem (P : str -> bool) (ps : list (str * str)) (v : str) :
  last_value P ps = Some v -> exists label, (label, v) ∈ ps /\ P label = true.
Proof.
  intros (pre & label & post & -> & Hl & _)%last_value_some.
  exists label. split; [|done]. apply elem_of_app. right. apply list_elem_of_here.
Qed.

(** X15. Every entry of [details] comes from a key/value row; its value is
    trimmed, and its key is the lower-cased form of a trimmed text.  When that
    text is ASCII the key is itself lower-case and trimmed (beyond ASCII,
    [str.lower] is not character by character and the model fixes no table for
    it).  The four optional keys hold trimmed values too. *)
Theorem details_keys_are_normalised
  (BeautifulSoup : str -> py node) (today tomorrow : date)
  (html_content case_id : str) (soup : node) :
  BeautifulSoup html_content = Ok soup ->
  add_one_day today = Ok tomorrow ->
  exists r,
    _parse_case_result BeautifulSoup today html_content case_id = Ok r /\
    (forall label value,
       CaseResult.details r !! label = Some value ->
       (label, value) ∈ key_value_rows soup /\
       trimmed value /\
       exists t, trimmed t /\ label = PyStr.lower t /\
                 (PyStr.is_ascii t = true ->
                  PyStr.lower label = label /\ trimmed label)) /\
    (forall v,
       CaseResult.court_name r = Some v \/ CaseResult.serial_number r = Some v \/
       CaseResult.case_status r = Some v \/ CaseResult.next_hearing_date r = Some v ->
       trimmed v).
Proof.
  intros Hsoup Htom.
  destruct (optional_keys_core BeautifulSoup today tomorrow html_content case_id soup
              Hsoup Htom) as (r & Hr & Hc & Hs & Hst & Hn).
  exists r. split; [exact Hr|].
  set (ps := key_value_rows soup) in *. split.
  - intros label value Hlook.
    rewrite (parse_case_result_spec _ _ _ _ _ _ Hsoup Htom) in Hr. injection Hr as <-.
    rewrite run_rows_details in Hlook. simpl in Hlook. rewrite lookup_empty in Hlook.
    fold ps in Hlook.
    destruct (last_value (PyStr.eqb label) ps) as [w|] eqn:Hlast; [|discriminate].
    injection Hlook as ->.
    apply last_value_elem in Hlast as (l & Hin & <-%eqb_eq).
    split; [exact Hin|]. by apply (key_value_rows_normalised soup).
  - intros v Hv.
    assert (Hfrom : exists P, last_value P ps = Some v).
    { destruct Hv as [Hv|[Hv|[Hv|Hv]]]; eexists; by rewrite <- Hv. }
    destruct Hfrom as (P & (l & Hin & _)%last_value_elem).
    by apply (key_value_rows_normalised soup l v).
Qed.

Lemma cell_text_trimmed (cells : list node) (i : nat) : trimmed (cell_text cells i).
Proof.
  unfold cell_text. destruct (cells !! i); [apply strip_trimmed | reflexivity].
Qed.

(** X16. On markup the parser accepts, every field of every cause-list entry
    is trimmed: no serial number, case number, party, advocate or purpose
    begins or ends with a character that [str.strip] removes. *)
Theorem cause_list_fields_are_trimmed (BeautifulSoup : str -> py node)
  (html_content : str) :
  let clean (field : str) : Prop :=
    trimmed field /\
    forall c, head field = Some c \/ last field = Some c -> PyStr.is_space c = false in
  match BeautifulSoup html_content with
  | Ok soup =>
      exists cl,
        _parse_cause_list BeautifulSoup html_content = Ok cl /\
        Forall (fun entry =>
                  clean (CauseListEntry.serial_number entry) /\
                  clean (CauseListEntry.case_number entry) /\
                  clean (CauseListEntry.parties entry) /\
                  clean (CauseListEntry.advocate entry) /\
                  clean (CauseListEntry.purpose entry))
          (CauseList.cases cl)
  | Raise e => _parse_cause_list BeautifulSoup html_content = Raise e
  end.
Proof.
  intros clean.
  assert (Hclean : forall field, trimmed field -> clean field).
  { intros field Hfield. split; [done|].
    destruct (strip_ends_unspaced field) as [Hh Hl]. rewrite Hfield in Hh, Hl.
    intros c [Hc|Hc]; auto. }
  destruct (BeautifulSoup html_content) as [soup|e] eqn:Hsoup;
    [|by apply parse_cause_list_rejected].
  eexists. split; [by apply parse_cause_list_spec|]. simpl.
  apply Forall_fmap, Forall_forall. intros row _. simpl.
  repeat split; try apply cell_text_trimmed; apply Hclean, cell_text_trimmed.
Qed.

End Properties.

(* ===================================================================== *)
(** * The theorems at work on the example documents *)
(* ===================================================================== *)

#[local] Existing Instance sample_unicode.

(** ** Reading dates *)

(** [strptime] is lenient about width: a one-digit day or month parses too. *)
Example strptime_accepts_short_day : Strptime.strptime "4-11-2026" = Ok nov4.
Proof. reflexivity. Qed.

Example strptime_rejects_words : Strptime.strptime "next Monday" = Raise ValueError.
Proof. reflexivity. Qed.

(** A year in Devanagari digits parses: [\d] and [int] take every decimal
    digit of Unicode. *)
Example strptime_accepts_devanagari_year : Strptime.strptime nov4_devanagari = Ok nov4.
Proof. reflexivity. Qed.

(** Where the expression names ASCII digits, others are refused: a day
    written as 0 and DEVANAGARI DIGIT FOUR does not parse. *)
Example strptime_rejects_devanagari_day :
  Strptime.strptime (lit "0" ++ [0x96a]%N ++ lit "-11-2026") = Raise ValueError.
Proof. reflexivity. Qed.

Example strptime_rejects_30_february :
  Strptime.strptime "30-02-2026" = Raise ValueError.
Proof. reflexivity. Qed.

(** ** The case-result interpreter *)

Lemma found_iff_hearing_today_or_tomorrow_witness :
  exists r,
    _parse_case_result (parsed_as (case_panel "01-10-2026" nov4_devanagari)) nov4
      case_panel_html "DLST010012342026" = Ok r /\
    CaseResult.found r = true.
Proof.
  destruct (found_iff_hearing_today_or_tomorrow
              (parsed_as (case_panel "01-10-2026" nov4_devanagari)) nov4 nov5
              case_panel_html "DLST010012342026"
              (case_panel "01-10-2026" nov4_devanagari) eq_refl eq_refl)
    as (r & Hr & Hfound).
  exists r. split; [exact Hr|]. apply Hfound.
  exists (lit "next hearing date"), nov4_devanagari, nov4.
  split; [|split; [by left | split; [reflexivity | by left]]].
  apply list_elem_of_In. vm_compute. tauto.
Defined.

Lemma listed_flags_imply_found_witness :
  add_one_day nov4 = Ok nov5 /\
  exists r,
    _parse_case_result (parsed_as (case_panel "04-11-2026" "04-11-2026")) nov4
      case_panel_html "DLST010012342026" = Ok r /\
    (CaseResult.listed_today r = true -> CaseResult.found r = true) /\
    (CaseResult.listed_tomorrow r = true -> CaseResult.found r = true).
Proof.
  split; [reflexivity|].
  destruct (listed_flags_imply_found
              (parsed_as (case_panel "04-11-2026" "04-11-2026")) nov4 nov5
              case_panel_html "DLST010012342026"
              (case_panel "04-11-2026" "04-11-2026") eq_refl eq_refl)
    as (r & Hr & Ht & Hm & _).
  exists r. auto.
Defined.

(** C2 as stated fails: a panel whose first hearing date is the evaluation
    date and whose next hearing date is the day after comes back with both
    flags set. *)
Lemma both_flags_set_by_two_rows :
  exists r,
    _parse_case_result (parsed_as (case_panel "04-11-2026" "05-11-2026")) nov4
      case_panel_html "DLST010012342026" = Ok r /\
    CaseResult.listed_today r = true /\ CaseResult.listed_tomorrow r = true.
Proof. eexists. split; [vm_compute; reflexivity|]. split; reflexivity. Qed.

Lemma unparseable_hearing_date_keeps_raw_value_witness :
  exists r,
    _parse_case_result (parsed_as (case_panel "01-10-2026" "next Monday")) nov4
      case_panel_html "DLST010012342026" = Ok r /\
    CaseResult.next_hearing_date r = Some (lit "next Monday") /\
    CaseResult.found r = false /\ CaseResult.listed_today r = false /\
    CaseResult.listed_tomorrow r = false.
Proof.
  destruct (unparseable_hearing_date_keeps_raw_value
              (parsed_as (case_panel "01-10-2026" "next Monday")) nov4 nov5
              case_panel_html "DLST010012342026"
              (case_panel "01-10-2026" "next Monday")
              [(lit "court name", lit "District Court, Saket");
               (lit "first hearing date", lit "01-10-2026")]
              [(lit "case status", lit "Pending")]
              "next hearing date" "next Monday" ValueError
              eq_refl eq_refl eq_refl (or_introl eq_refl) eq_refl)
    as (r & Hr & _ & Hlast & _ & _ & _ & Hnone).
  exists r. split; [exact Hr|]. split.
  - apply Hlast. repeat constructor. intros [Hl|Hl]; vm_compute in Hl; discriminate.
  - apply Hnone. intros p Hp.
    apply list_elem_of_In in Hp. simpl in Hp.
    destruct Hp as [<-|[<-|[<-|[]]]]; reflexivity.
Defined.

Lemma clock_reaches_only_the_flags_witness :
  exists r1 r2,
    _parse_case_result (parsed_as (case_panel "01-10-2026" "05-11-2026")) nov4
      case_panel_html "DLST010012342026" = Ok r1 /\
    _parse_case_result (parsed_as (case_panel "01-10-2026" "05-11-2026")) nov9
      case_panel_html "DLST010012342026" = Ok r2 /\
    untimed r1 = untimed r2.
Proof.
  destruct (clock_reaches_only_the_flags
              (parsed_as (case_panel "01-10-2026" "05-11-2026"))
              nov4 nov5 nov9 (mkDate 2026 11 10)
              case_panel_html "DLST010012342026"
              (case_panel "01-10-2026" "05-11-2026") eq_refl eq_refl eq_refl)
    as [(r1 & r2 & Hr1 & Hr2 & Hu & _) _].
  exists r1, r2. auto.
Defined.

(** C9 as stated fails: the same text and case id give different results
    when the clock shows different dates. *)
Lemma same_text_different_day :
  _parse_case_result (parsed_as (case_panel "01-10-2026" "05-11-2026")) nov4
    case_panel_html "DLST010012342026"
  <> _parse_case_result (parsed_as (case_panel "01-10-2026" "05-11-2026")) nov9
       case_panel_html "DLST010012342026".
Proof.
  intros Heq.
  apply (f_equal (fun x => match x with
                           | Ok r => CaseResult.found r
                           | Raise _ => false
                           end)) in Heq.
  vm_compute in Heq. discriminate.
Qed.

(** Markup the parser rejects leaves the interpreter with the parser's
    exception; the search that called it returns [None]. *)
Example rejected_markup_search_is_none :
  search_case_by_cnr rejected nov4 (Ok (html_response 200)) "DLST010012342026" = None.
Proof. reflexivity. Qed.

Lemma details_last_write_wins_witness :
  exists r,
    _parse_case_result (parsed_as (case_panel "01-10-2026" "05-11-2026")) nov4
      case_panel_html "DLST010012342026" = Ok r /\
    CaseResult.details r !! lit "next hearing date" = Some (lit "05-11-2026").
Proof.
  destruct (details_last_write_wins
              (parsed_as (case_panel "01-10-2026" "05-11-2026")) nov4 nov5
              case_panel_html "DLST010012342026"
              (case_panel "01-10-2026" "05-11-2026") eq_refl eq_refl)
    as (r & Hr & Hsome & _).
  exists r. split; [exact Hr|]. apply Hsome.
  exists [(lit "court name", lit "District Court, Saket");
          (lit "first hearing date", lit "01-10-2026")],
         [(lit "case status", lit "Pending")].
  split; [reflexivity|]. repeat constructor. discriminate.
Defined.

Lemma optional_keys_take_last_matching_row_witness :
  exists r,
    _parse_case_result (parsed_as (case_panel "01-10-2026" "next Monday")) nov4
      case_panel_html "DLST010012342026" = Ok r /\
    CaseResult.court_name r = Some (lit "District Court, Saket") /\
    CaseResult.serial_number r = None /\
    CaseResult.case_status r = Some (lit "Pending") /\
    CaseResult.next_hearing_date r = Some (lit "next Monday").
Proof.
  destruct (optional_keys_take_last_matching_row
              (parsed_as (case_panel "01-10-2026" "next Monday")) nov4 nov5
              case_panel_html "DLST010012342026"
              (case_panel "01-10-2026" "next Monday") eq_refl eq_refl)
    as (r & Hr & Hc & Hs & Hst & Hn & _).
  exists r. split; [exact Hr|]. rewrite Hc, Hs, Hst, Hn. by vm_compute.
Defined.

Lemma optional_keys_agree_with_details_witness :
  exists r,
    _parse_case_result (parsed_as (case_panel "01-10-2026" "05-11-2026")) nov4
      case_panel_html "DLST010012342026" = Ok r /\
    (forall v, CaseResult.court_name r = Some v ->
       exists label, PyStr.contains "court" label = true /\
                     CaseResult.details r !! label = Some v).
Proof.
  destruct (optional_keys_agree_with_details
              (parsed_as (case_panel "01-10-2026" "05-11-2026")) nov4 nov5
              case_panel_html "DLST010012342026"
              (case_panel "01-10-2026" "05-11-2026") eq_refl eq_refl)
    as (r & Hr & Hc & _).
  exists r. auto.
Defined.

Lemma found_implies_next_hearing_date_witness :
  exists r,
    _parse_case_result (parsed_as (case_panel "04-11-2026" "next Monday")) nov4
      case_panel_html "DLST010012342026" = Ok r /\
    CaseResult.found r = true /\
    exists label value,
      CaseResult.next_hearing_date r = Some value /\
      (label, value) ∈ key_value_rows (case_panel "04-11-2026" "next Monday") /\
      hearing_label label.
Proof.
  destruct (found_implies_next_hearing_date
              (parsed_as (case_panel "04-11-2026" "next Monday")) nov4 nov5
              case_panel_html "DLST010012342026"
              (case_panel "04-11-2026" "next Monday") eq_refl eq_refl)
    as (r & Hr & Hnext).
  exists r. split; [exact Hr|].
  assert (Hf : CaseResult.found r = true).
  { vm_compute in Hr. injection Hr as <-. reflexivity. }
  split; [exact Hf|]. apply Hnext. by left.
Defined.

Lemma no_key_value_rows_gives_initial_result_witness :
  _parse_case_result
    (parsed_as (document [Tag "p" ∅ [NavigableString "No records found"]]))
    nov4 "<p>No records found</p>" "DLST010012342026" =
  Ok (CaseResult.mk "DLST010012342026" false false false None None None None ∅).
Proof.
  apply (no_key_value_rows_gives_initial_result _ nov4 nov5 _ _
           (document [Tag "p" ∅ [NavigableString "No records found"]]));
    [reflexivity | reflexivity |].
  intros row Hrow. vm_compute in Hrow. by apply elem_of_nil in Hrow.
Defined.

Example search_without_match_is_not_none :
  search_case_by_details (parsed_as (document [])) nov4 (Ok (html_response 200))
    "CS" "101" "2026"
  = Some (SearchResult.mk (initial_result "CS/101/2026") "DETAILS" None
            (Some (lit "CS", lit "101", lit "2026"))).
Proof. reflexivity. Qed.

Lemma formatted_hearing_date_is_listed_witness :
  exists r,
    _parse_case_result (parsed_as (case_panel "01-10-2026" "05-11-2026")) nov4
      case_panel_html "DLST010012342026" = Ok r /\
    CaseResult.found r = true /\ CaseResult.listed_tomorrow r = true.
Proof.
  destruct (formatted_hearing_date_is_listed
              (parsed_as (case_panel "01-10-2026" "05-11-2026")) nov4 nov5
              case_panel_html "DLST010012342026" "next hearing date" "05-11-2026"
              (case_panel "01-10-2026" "05-11-2026")
              eq_refl eq_refl eq_refl)
    as (_ & r & Hr & _ & Htomorrow).
  - apply list_elem_of_In. vm_compute. tauto.
  - by left.
  - exists r. split; [exact Hr|]. by apply Htomorrow.
Defined.

Lemma details_keys_are_normalised_witness :
  exists r,
    _parse_case_result (parsed_as (case_panel "01-10-2026" "05-11-2026")) nov4
      case_panel_html "DLST010012342026" = Ok r /\
    CaseResult.details r !! lit "next hearing date" = Some (lit "05-11-2026") /\
    (forall label value,
       CaseResult.details r !! label = Some value -> trimmed value).
Proof.
  destruct (details_keys_are_normalised
              (parsed_as (case_panel "01-10-2026" "05-11-2026")) nov4 nov5
              case_panel_html "DLST010012342026"
              (case_panel "01-10-2026" "05-11-2026") eq_refl eq_refl)
    as (r & Hr & Hdetails & _).
  exists r. split; [exact Hr|]. split.
  - vm_compute in Hr. injection Hr as <-. reflexivity.
  - intros label value Hlook. by destruct (Hdetails label value Hlook) as (_ & Hv & _).
Defined.

(** ** The cause-list interpreter *)

Example cause_list_three_rows :
  _parse_cause_list
    (parsed_as (cause_table [td "2"; td "CS/102/2026"; td "Lata vs Om"; td ""; td "Evidence"]))
    cause_table_html
  = Ok (CauseList.mk (Some 3%nat)
          [ CauseListEntry.mk "1" "CS/101/2026" "Asha vs Ravi" "Mr. Rao" "Arguments";
            CauseListEntry.mk "2" "CS/102/2026" "Lata vs Om" "" "Evidence";
            CauseListEntry.mk "3" "CS/103/2026" "State vs Mohan" "Ms. Bose" "Orders" ]
          None None).
Proof. reflexivity. Qed.

Example cause_list_short_row_skipped :
  _parse_cause_list
    (parsed_as (cause_table [td "2"; td "CS/102/2026"; td "Lata vs Om"]))
    cause_table_html
  = Ok (CauseList.mk (Some 2%nat)
          [ CauseListEntry.mk "1" "CS/101/2026" "Asha vs Ravi" "Mr. Rao" "Arguments";
            CauseListEntry.mk "3" "CS/103/2026" "State vs Mohan" "Ms. Bose" "Orders" ]
          None None).
Proof. reflexivity. Qed.

(** After a response whose text the parser rejects, [fetch_cause_list]
    answers with the error shape. *)
Example rejected_markup_cause_list_is_error :
  fetch_cause_list rejected "2026-11-04T10:00:00" (Ok (html_response 200))
    "5" "12" "3" None "04-11-2026"
  = CauseList.mk None [] None
      (Some (lit "AssertionError: unknown status keyword in marked section")).
Proof. reflexivity. Qed.

Lemma first_row_dropped_even_if_data_witness :
  exists cl,
    _parse_cause_list (parsed_as (document [headless_table]))
      "<table>...two hearings, no header...</table>" = Ok cl /\
    CauseList.total_cases cl = Some 1%nat.
Proof.
  destruct (first_row_dropped_even_if_data
              (parsed_as (document [headless_table]))
              "<table>...two hearings, no header...</table>"
              (document [headless_table]) headless_table eq_refl eq_refl)
    as (cl & Hcl & Htotal & _).
  - intros row Hrow. apply list_elem_of_In in Hrow. simpl in Hrow.
    destruct Hrow as [<-|[<-|[]]]; vm_compute; lia.
  - exists cl. split; [exact Hcl | exact Htotal].
Defined.

(** ** The location fetchers *)

Example option_fragment_entries :
  fetch_districts (parsed_as option_fragment) (Ok (html_response 200))
  = [LocationEntry.mk "5" "Goa"; LocationEntry.mk "7" "Kerala"].
Proof. reflexivity. Qed.

(** Blanks beyond ASCII are trimmed like the others: an option whose value
    is an ideographic space is skipped, and EM spaces around a code and a name
    are removed. *)
Example padded_option_fragment_entries :
  fetch_districts (parsed_as padded_option_fragment) (Ok (html_response 200))
  = [LocationEntry.mk "7" "Kerala"].
Proof. reflexivity. Qed.

(** C5 as stated fails: a document with valid options, none of them inside
    a state select, gives the fallback. *)
Lemma fetch_states_ignores_options_outside_select :
  valid_entries option_fragment = [LocationEntry.mk "5" "Goa"; LocationEntry.mk "7" "Kerala"] /\
  fetch_states (parsed_as option_fragment) (Ok (html_response 200)) = _get_default_states.
Proof. split; reflexivity. Qed.

Example rejected_markup_states_is_fallback :
  fetch_states rejected (Ok (html_response 200)) = _get_default_states.
Proof. reflexivity. Qed.

(** ** The try/except boundary *)

(** C4 as stated fails twice: a failed [fetch_states] returns ten states,
    and a 503 response is interpreted like any other. *)
Lemma failure_is_not_always_no_data :
  fetch_states (parsed_as (document [])) (Raise (TransportError "timed out")) <> [] /\
  search_case_by_cnr (parsed_as (document [])) nov4 (Ok (html_response 503))
    "DLST010012342026"
  = Some (SearchResult.mk (initial_result "DLST010012342026") "CNR"
            (Some (lit "DLST010012342026")) None).
Proof. split; [discriminate | reflexivity]. Qed.

(** ** The document download *)

(** C3 as stated fails: what comes back is the path of the written file,
    never the payload; and a response that is no PDF writes nothing. *)
Lemma download_writes_file_and_returns_path :
  download_cause_list_pdf posix_sep os_allows_all (Ok (pdf_response 200))
    "5" "12" "3" "04-11-2026"
  = (Some (lit "downloads/cause_list_5_12_3_04112026.pdf"),
     [Makedirs "downloads";
      OpenWrite "downloads/cause_list_5_12_3_04112026.pdf";
      Write "downloads/cause_list_5_12_3_04112026.pdf" pdf_bytes;
      Close "downloads/cause_list_5_12_3_04112026.pdf"]) /\
  download_cause_list_pdf posix_sep os_allows_all (Ok (pdf_response 404))
    "5" "12" "3" "04-11-2026"
  = (None, []).
Proof. split; reflexivity. Qed.

(** On a full disk the download returns [None], and the file it opened is
    left behind, created or emptied and closed. *)
Example download_on_full_disk_leaves_file :
  download_cause_list_pdf posix_sep os_disk_full (Ok (pdf_response 200))
    "5" "12" "3" "04-11-2026"
  = (None,
     [Makedirs "downloads";
      OpenWrite "downloads/cause_list_5_12_3_04112026.pdf";
      Close "downloads/cause_list_5_12_3_04112026.pdf"]).
Proof. reflexivity. Qed.

(** On Windows the path is joined with a backslash. *)
Example download_path_on_windows :
  (download_cause_list_pdf [92%N] os_allows_all (Ok (pdf_response 200))
     "5" "12" "3" "04-11-2026").1
  = Some (lit "downloads" ++ [92%N] ++ lit "cause_list_5_12_3_04112026.pdf").
Proof. reflexivity. Qed.

Lemma download_path_ignores_content_and_hyphens_witness :
  lit "downloads/cause_list_5_12_3_04112026.pdf"
  = lit "downloads/cause_list_5_12_3_04112026.pdf".
Proof.
  exact (download_path_ignores_content_and_hyphens
           posix_sep os_allows_all os_allows_all
           (Ok (pdf_response 200))
           (Ok (Response.mk 200 (Some (lit "application/pdf")) [] [Init.Byte.x00]))
           "5" "12" "3" "04-11-2026" "04112026"
           "downloads/cause_list_5_12_3_04112026.pdf"
           "downloads/cause_list_5_12_3_04112026.pdf"
           eq_refl eq_refl eq_refl).
Defined.
